(** * The TechOS terminal component (src/components/Terminal.jsx)

    A shallow embedding of the command interpreter and of the key handler of
    the React component, with the facts its specification states about them.

    Conventions of the embedding
    - A JavaScript string is a [string]: a sequence of code units, read here
      as the code units U+0000 to U+00FF.
    - A React state variable is read from the snapshot of the render that
      created the handler; a setter call [setX(v)] queues [v], and the last
      queued value of each variable is the value of the next render.  A
      handler is therefore a computation over the queued next state that
      reads the rendered snapshot as a plain argument.
    - A handler may complete normally or by a thrown exception. *)

From Stdlib Require Import Strings.String Strings.Ascii Lists.List.
From Stdlib Require Import ZArith.ZArith NArith.NArith Bool.Bool micromega.Lia.
From Stdlib Require Import Numbers.DecimalString.
Import ListNotations.

Open Scope list_scope.
Open Scope string_scope.

(* ================================================================== *)
(** ** The JavaScript primitives the component calls *)

Module JS.

(** Values the component passes to a setter besides lists and booleans:
    [undefined], a string, or a member that an object literal inherits from
    [Object.prototype] (the prototype itself for [__proto__], a function
    for the other names).  For an inherited function the state records the
    member that was passed to the setter, not what React derives from it. *)
Inductive value : Type :=
| Undefined
| Str (s : string)
| Inherited (name : string).

(** Completion of an evaluation: a result, or a thrown exception. *)
Inductive completion (A : Type) : Type :=
| Normal (a : A)
| Throw.
Arguments Normal {A} a.
Arguments Throw {A}.

Definition LF : ascii := "010"%char.
Definition LFs : string := String LF EmptyString.
Definition DQUOTE : string := String "034"%char EmptyString.

(** [ToBoolean] on a string: only the empty string is falsy. *)
Definition truthyString (s : string) : bool :=
  match s with EmptyString => false | String _ _ => true end.

(** [ToBoolean] on a value. *)
Definition truthy (v : value) : bool :=
  match v with
  | Undefined => false
  | Str s => truthyString s
  | Inherited _ => true
  end.

(** [ToBoolean] on a string, [null] or [undefined] ([None]). *)
Definition truthyOpt (o : option string) : bool :=
  match o with None => false | Some s => truthyString s end.

(** White space and line terminators stripped by [String.prototype.trim]:
    TAB, LF, VT, FF, CR, SP and NBSP. *)
Definition isWhiteSpace (c : ascii) : bool :=
  match N_of_ascii c with
  | 9 | 10 | 11 | 12 | 13 | 32 | 160 => true
  | _ => false
  end%N.

(** [toLowerCase] on one code unit: A-Z, and the capital letters
    U+00C0 to U+00DE except the multiplication sign U+00D7. *)
Definition lowerUnit (c : ascii) : ascii :=
  let n := N_of_ascii c in
  if ((65 <=? n) && (n <=? 90) ||
      (192 <=? n) && (n <=? 222) && negb (n =? 215))%N
  then ascii_of_N (n + 32) else c.

Fixpoint toLowerCase (s : string) : string :=
  match s with
  | EmptyString => EmptyString
  | String c s' => String (lowerUnit c) (toLowerCase s')
  end.

Fixpoint trimStart (s : string) : string :=
  match s with
  | EmptyString => EmptyString
  | String c s' => if isWhiteSpace c then trimStart s' else s
  end.

Fixpoint trimEnd (s : string) : string :=
  match s with
  | EmptyString => EmptyString
  | String c s' =>
      match trimEnd s' with
      | EmptyString => if isWhiteSpace c then EmptyString
                       else String c EmptyString
      | t => String c t
      end
  end.

Definition trim (s : string) : string := trimEnd (trimStart s).

(** [s.startsWith(p)]. *)
Fixpoint startsWith (s p : string) {struct p} : bool :=
  match p with
  | EmptyString => true
  | String c p' =>
      match s with
      | EmptyString => false
      | String d s' => Ascii.eqb d c && startsWith s' p'
      end
  end.

(** [s.slice(n)] for a non-negative [n]. *)
Fixpoint slice (s : string) (n : nat) {struct n} : string :=
  match n, s with
  | O, _ => s
  | S _, EmptyString => EmptyString
  | S n', String _ s' => slice s' n'
  end.

(** [s.split(sep)] for a one-unit separator: never the empty list. *)
Fixpoint split (s : string) (sep : ascii) : list string :=
  match s with
  | EmptyString => [EmptyString]
  | String c s' =>
      if Ascii.eqb c sep then EmptyString :: split s' sep
      else match split s' sep with
           | [] => [String c EmptyString]
           | piece :: pieces => String c piece :: pieces
           end
  end.

(** [arr[i]] on an array of strings: [undefined] outside the array. *)
Definition index (arr : list string) (i : Z) : value :=
  if (i <? 0)%Z then Undefined
  else match nth_error arr (Z.to_nat i) with
       | Some s => Str s
       | None => Undefined
       end.

(** The property names every object literal inherits from
    [Object.prototype]. *)
Definition objectPrototypeKeys : list string :=
  [ "constructor"; "hasOwnProperty"; "isPrototypeOf";
    "propertyIsEnumerable"; "toLocaleString"; "toString"; "valueOf";
    "__proto__"; "__defineGetter__"; "__defineSetter__";
    "__lookupGetter__"; "__lookupSetter__" ].

Fixpoint ownProperty (own : list (string * string)) (key : string)
  : option string :=
  match own with
  | [] => None
  | (k, v) :: rest => if String.eqb k key then Some v
                      else ownProperty rest key
  end.

(** [obj[key]] on an object literal with string properties [own]: an own
    property first, then the prototype chain, else [undefined]. *)
Definition getProperty (own : list (string * string)) (key : string)
  : value :=
  match ownProperty own key with
  | Some v => Str v
  | None => if existsb (String.eqb key) objectPrototypeKeys
            then Inherited key else Undefined
  end.

End JS.

Import JS.

(* ================================================================== *)
(** ** The component *)

Module Terminal.

(** What the component takes from its host at one event: the rendering
    of the current date, the value of
    [Math.floor(Math.random() * jokes.length)], and the evaluation of
    [new Function('return ' + expression)()] followed by the conversion
    of the result to a string, which yields the text or throws; for the
    fullscreen button, whether [document.fullscreenElement] is set and how
    the call [requestFullscreen()] or [exitFullscreen()] completes.

    [evalFunction] gives the completion of an evaluation that ends.  The
    evaluated text is JavaScript and may also change the page it runs in;
    that is not followed here.  The facts about one call of the handler
    hold as they are stated; the facts about whole sessions are stated for
    sessions whose evaluated texts are arithmetic ([plainLine] below),
    which can change nothing. *)
Record Host : Type := mkHost {
  dateToLocaleString : string;
  randomIndex : nat;
  evalFunction : string -> completion string;
  fullscreenElement : bool;
  fullscreenCall : completion unit
}.

(** The [useState] variables. *)
Record State : Type := mkState {
  history : list string;
  currentCommand : value;
  commandHistory : list string;
  historyIndex : Z;
  showMatrix : bool;
  isFullscreen : bool;
  isMinimized : bool;
  terminalColor : value
}.

Definition initialState : State :=
  {| history := [ "Welcome to TechOS Terminal v1.0.0";
                  "Type " ++ DQUOTE ++ "help" ++ DQUOTE
                    ++ " to see available commands." ];
     currentCommand := Str "";
     commandHistory := [];
     historyIndex := (-1)%Z;
     showMatrix := false;
     isFullscreen := false;
     isMinimized := false;
     terminalColor := Str "#00ff00" |}.

(** *** Handlers: computations over the queued next state *)

Definition Handler (A : Type) : Type := State -> completion A * State.

Definition ret {A} (a : A) : Handler A := fun nxt => (Normal a, nxt).

Definition throw {A} : Handler A := fun nxt => (Throw, nxt).

Definition bind {A B} (m : Handler A) (k : A -> Handler B) : Handler B :=
  fun nxt =>
    match m nxt with
    | (Normal a, nxt') => k a nxt'
    | (Throw, nxt') => (Throw, nxt')
    end.

(** [try { body } catch { handler }]. *)
Definition tryCatch {A} (body handler : Handler A) : Handler A :=
  fun nxt =>
    match body nxt with
    | (Normal a, nxt') => (Normal a, nxt')
    | (Throw, nxt') => handler nxt'
    end.

(** A call into the host that may throw. *)
Definition call {A} (c : completion A) : Handler A := fun nxt => (c, nxt).

Notation "x <- m ;; k" := (bind m (fun x => k))
  (at level 61, m at next level, right associativity).
Notation "m ;; k" := (bind m (fun _ => k))
  (at level 61, right associativity).

(** The setters. *)
Definition setHistory (v : list string) : Handler unit := fun nxt =>
  (Normal tt,
   {| history := v; currentCommand := currentCommand nxt;
      commandHistory := commandHistory nxt;
      historyIndex := historyIndex nxt; showMatrix := showMatrix nxt;
      isFullscreen := isFullscreen nxt; isMinimized := isMinimized nxt;
      terminalColor := terminalColor nxt |}).

Definition setCurrentCommand (v : value) : Handler unit := fun nxt =>
  (Normal tt,
   {| history := history nxt; currentCommand := v;
      commandHistory := commandHistory nxt;
      historyIndex := historyIndex nxt; showMatrix := showMatrix nxt;
      isFullscreen := isFullscreen nxt; isMinimized := isMinimized nxt;
      terminalColor := terminalColor nxt |}).

Definition setCommandHistory (v : list string) : Handler unit := fun nxt =>
  (Normal tt,
   {| history := history nxt; currentCommand := currentCommand nxt;
      commandHistory := v;
      historyIndex := historyIndex nxt; showMatrix := showMatrix nxt;
      isFullscreen := isFullscreen nxt; isMinimized := isMinimized nxt;
      terminalColor := terminalColor nxt |}).

Definition setHistoryIndex (v : Z) : Handler unit := fun nxt =>
  (Normal tt,
   {| history := history nxt; currentCommand := currentCommand nxt;
      commandHistory := commandHistory nxt;
      historyIndex := v; showMatrix := showMatrix nxt;
      isFullscreen := isFullscreen nxt; isMinimized := isMinimized nxt;
      terminalColor := terminalColor nxt |}).

Definition setShowMatrix (v : bool) : Handler unit := fun nxt =>
  (Normal tt,
   {| history := history nxt; currentCommand := currentCommand nxt;
      commandHistory := commandHistory nxt;
      historyIndex := historyIndex nxt; showMatrix := v;
      isFullscreen := isFullscreen nxt; isMinimized := isMinimized nxt;
      terminalColor := terminalColor nxt |}).

Definition setIsMinimized (v : bool) : Handler unit := fun nxt =>
  (Normal tt,
   {| history := history nxt; currentCommand := currentCommand nxt;
      commandHistory := commandHistory nxt;
      historyIndex := historyIndex nxt; showMatrix := showMatrix nxt;
      isFullscreen := isFullscreen nxt; isMinimized := v;
      terminalColor := terminalColor nxt |}).

Definition setIsFullscreen (v : bool) : Handler unit := fun nxt =>
  (Normal tt,
   {| history := history nxt; currentCommand := currentCommand nxt;
      commandHistory := commandHistory nxt;
      historyIndex := historyIndex nxt; showMatrix := showMatrix nxt;
      isFullscreen := v; isMinimized := isMinimized nxt;
      terminalColor := terminalColor nxt |}).

(** The value passed to the setter is stored.  Where it is an inherited
    function, React takes it as an updater and the next render derives the
    color from it, or fails; that is not followed here: the state records
    the member that was passed, and the facts about whole sessions leave
    such lines out ([plainLine] below). *)
Definition setTerminalColor (v : value) : Handler unit := fun nxt =>
  (Normal tt,
   {| history := history nxt; currentCommand := currentCommand nxt;
      commandHistory := commandHistory nxt;
      historyIndex := historyIndex nxt; showMatrix := showMatrix nxt;
      isFullscreen := isFullscreen nxt; isMinimized := isMinimized nxt;
      terminalColor := v |}).

(** *** The texts *)

Definition helpLines : list string :=
  [ "Available commands:";
    "- help: Display this help message";
    "- clear: Clear the terminal screen";
    "- echo [text]: Display the text";
    "- date: Show current date and time";
    "- matrix: Toggle Matrix-style animation";
    "- whoami: Display current user";
    "- color [green/blue/purple]: Change terminal text color";
    "- systeminfo: Display system information";
    "- joke: Tell a random programming joke";
    "- calc [expression]: Simple calculator (e.g., calc 2 + 2)" ].

(** The template literal of the [help] case. *)
Definition helpText : string := String.concat LFs helpLines.

Definition systeminfoLines : list string :=
  [ "OS: TechOS v1.0.0";
    "Terminal: React Terminal";
    "Memory: 640K (should be enough for anybody)";
    "CPU: Quantum Core i9";
    "Resolution: Yes";
    "Status: Optimal" ].

Definition systeminfoText : string := String.concat LFs systeminfoLines.

Definition jokes : list string :=
  [ "Why do programmers prefer dark mode? Because light attracts bugs!";
    "How many programmers does it take to change a light bulb? None, that's a hardware problem!";
    "Why do JavaScript developers need glasses? Because they don't see sharp!" ].

Definition colorMap : list (string * string) :=
  [ ("green", "#00ff00"); ("blue", "#00ffff"); ("purple", "#ff00ff") ].

Definition commandNotFound (command : string) : string :=
  "Command not found: " ++ command
    ++ ". Type 'help' for available commands.".

(** *** processOutput *)

Definition processOutput (output : option string) : list string :=
  if negb (truthyOpt output) then []
  else match output with
       | Some text => split text LF
       | None => []
       end.

(** *** handleCommand

    [r] is the rendered snapshot the closure reads.  The result is the
    returned string, or [None] for [null] and [undefined]. *)
Definition handleCommand (h : Host) (r : State) (command : string)
  : Handler (option string) :=
  let lc := toLowerCase command in
  if lc =? "help" then ret (Some helpText)
  else if lc =? "clear" then
    setHistory [] ;;
    ret None
  else if lc =? "date" then ret (Some (dateToLocaleString h))
  else if lc =? "matrix" then
    setShowMatrix (negb (showMatrix r)) ;;
    ret (Some "Matrix mode toggled...")
  else if lc =? "whoami" then ret (Some "guest@TechOS")
  else if lc =? "systeminfo" then ret (Some systeminfoText)
  else if lc =? "joke" then ret (nth_error jokes (randomIndex h))
  else
    if startsWith command "echo " then ret (Some (slice command 5))
    else
      (* the statements after the [color] block, reached when that block
         does not return *)
      let afterColor : Handler (option string) :=
        if startsWith command "calc " then
          tryCatch
            (let expression := slice command 5 in
             result <- call (evalFunction h expression) ;;
             ret (Some (expression ++ " = " ++ result)))
            (ret (Some "Invalid expression"))
        else ret (Some (commandNotFound command)) in
      if startsWith command "color " then
        let color := slice command 6 in
        if truthy (getProperty colorMap color) then
          setTerminalColor (getProperty colorMap color) ;;
          ret (Some ("Terminal color changed to " ++ color))
        else afterColor
      else afterColor.

(** *** handleKeyPress *)

Inductive Key : Type := Enter | ArrowUp | ArrowDown | OtherKey.

Definition handleKeyPress (h : Host) (r : State) (key : Key)
  : Handler unit :=
  match key with
  | Enter =>
      match currentCommand r with
      | Str typed =>
          let command := trim typed in
          if truthyString command then
            setCommandHistory (command :: commandHistory r) ;;
            setHistoryIndex (-1) ;;
            response <- handleCommand h r command ;;
            let newLines :=
              filter truthyString
                (history r ++ ["> " ++ command] ++ processOutput response)
            in
            setHistory newLines ;;
            setCurrentCommand (Str "")
          else ret tt
      | _ => throw  (* no [trim] method: TypeError *)
      end
  | ArrowUp =>
      if (historyIndex r <? Z.of_nat (length (commandHistory r)) - 1)%Z then
        let newIndex := (historyIndex r + 1)%Z in
        setHistoryIndex newIndex ;;
        setCurrentCommand (index (commandHistory r) newIndex)
      else ret tt
  | ArrowDown =>
      if (historyIndex r >? 0)%Z then
        let newIndex := (historyIndex r - 1)%Z in
        setHistoryIndex newIndex ;;
        setCurrentCommand (index (commandHistory r) newIndex)
      else if (historyIndex r =? 0)%Z then
        setHistoryIndex (-1) ;;
        setCurrentCommand (Str "")
      else ret tt
  | OtherKey => ret tt
  end.

(** *** The other handlers of the view *)

(** The request goes to the document first; the flag is set after it. *)
Definition toggleFullscreen (h : Host) : Handler unit :=
  if negb (fullscreenElement h) then
    call (fullscreenCall h) ;;
    setIsFullscreen true
  else
    call (fullscreenCall h) ;;
    setIsFullscreen false.

Definition toggleMinimize (r : State) : Handler unit :=
  setIsMinimized (negb (isMinimized r)).

Inductive Event : Type :=
| KeyDown (key : Key)          (* onKeyDown of the input *)
| Change (text : string)       (* onChange of the input *)
| CloseClick                   (* the X button *)
| MinimizeClick                (* the minimize button, or the bar *)
| FullscreenClick.             (* the maximize button *)

Definition handle (h : Host) (r : State) (e : Event) : Handler unit :=
  match e with
  | KeyDown key => handleKeyPress h r key
  | Change text => setCurrentCommand (Str text)
  | CloseClick => setHistory ["Terminal reset."]
  | MinimizeClick => toggleMinimize r
  | FullscreenClick => toggleFullscreen h
  end.

(** One event: the handler created by the render of [r] runs, and the
    queued values become the next render's state. *)
Definition run (h : Host) (e : Event) (r : State)
  : completion unit * State := handle h r e r.

Definition step (h : Host) (e : Event) (r : State) : State :=
  snd (run h e r).

(** The user types [text] into the input and presses Enter. *)
Definition submitLine (h : Host) (text : string) (r : State) : State :=
  step h (KeyDown Enter) (step h (Change text) r).

Inductive Direction : Type := Previous | Next.

Definition navigate (h : Host) (d : Direction) (r : State) : State :=
  step h (KeyDown match d with Previous => ArrowUp | Next => ArrowDown end)
       r.

Definition navigateAll (h : Host) (ds : list Direction) (r : State)
  : State :=
  fold_left (fun st d => navigate h d st) ds r.

End Terminal.

Import Terminal.

(* ================================================================== *)
(** ** A host for running the model

    An evaluator for the integer expressions the calculator is documented
    with: decimal literals without a leading zero, [+ - *], unary signs and
    parentheses.  It throws on every other text.  The facts below hold for
    every host; this one serves to run the model on concrete lines. *)

Module Arith.

Inductive token : Type :=
| TNum (n : Z) | TPlus | TMinus | TStar | TOpen | TClose.

Definition digit (c : ascii) : option Z :=
  let n := N_of_ascii c in
  if ((48 <=? n) && (n <=? 57))%N then Some (Z.of_N (n - 48)) else None.

(** The literal read so far, if any, goes in front of the tokens that
    follow it. *)
Definition flush (acc : option Z) (ts : list token) : list token :=
  match acc with Some n => TNum n :: ts | None => ts end.

Definition punct (c : ascii) : option (list token) :=
  if isWhiteSpace c then Some []
  else if Ascii.eqb c "+" then Some [TPlus]
  else if Ascii.eqb c "-" then Some [TMinus]
  else if Ascii.eqb c "*" then Some [TStar]
  else if Ascii.eqb c "(" then Some [TOpen]
  else if Ascii.eqb c ")" then Some [TClose]
  else None.

(** A doubled sign is the increment or decrement operator, which no
    literal accepts. *)
Definition doubled (c : ascii) (s : string) : bool :=
  match s with
  | String c' _ =>
      Ascii.eqb c c' && (Ascii.eqb c "+" || Ascii.eqb c "-")
  | EmptyString => false
  end.

Fixpoint lex (s : string) (acc : option Z) : option (list token) :=
  match s with
  | EmptyString => Some (flush acc [])
  | String c s' =>
      match digit c with
      | Some d =>
          match acc with
          | Some 0%Z => None
          | Some n => lex s' (Some (10 * n + d)%Z)
          | None => lex s' (Some d)
          end
      | None =>
          if doubled c s' then None
          else match punct c, lex s' None with
               | Some ts, Some rest => Some (flush acc (ts ++ rest)%list)
               | _, _ => None
               end
      end
  end.

Definition parser : Type := list token -> option (Z * list token).

(** [v (op operand)*] for the operators of one precedence level. *)
Fixpoint tail (operand : parser) (op : token -> option (Z -> Z -> Z))
         (fuel : nat) (v : Z) (ts : list token) : option (Z * list token) :=
  match fuel, ts with
  | S fuel', t :: rest =>
      match op t with
      | Some f =>
          match operand rest with
          | Some (w, rest') => tail operand op fuel' (f v w) rest'
          | None => None
          end
      | None => Some (v, ts)
      end
  | _, _ => Some (v, ts)
  end.

Definition additive (t : token) : option (Z -> Z -> Z) :=
  match t with
  | TPlus => Some Z.add | TMinus => Some Z.sub | _ => None
  end.

Definition multiplicative (t : token) : option (Z -> Z -> Z) :=
  match t with TStar => Some Z.mul | _ => None end.

Inductive level : Type := Sum | Product | Unary.

Fixpoint parse (fuel : nat) (lv : level) (ts : list token)
  : option (Z * list token) :=
  match fuel with
  | O => None
  | S fuel' =>
      match lv with
      | Sum =>
          match parse fuel' Product ts with
          | Some (v, rest) =>
              tail (parse fuel' Product) additive (length rest) v rest
          | None => None
          end
      | Product =>
          match parse fuel' Unary ts with
          | Some (v, rest) =>
              tail (parse fuel' Unary) multiplicative (length rest) v rest
          | None => None
          end
      | Unary =>
          match ts with
          | TNum n :: rest => Some (n, rest)
          | TMinus :: rest =>
              match parse fuel' Unary rest with
              | Some (v, rest') => Some ((- v)%Z, rest')
              | None => None
              end
          | TPlus :: rest => parse fuel' Unary rest
          | TOpen :: rest =>
              match parse fuel' Sum rest with
              | Some (v, TClose :: rest') => Some (v, rest')
              | _ => None
              end
          | _ => None
          end
      end
  end.

Definition showZ (v : Z) : string := NilZero.string_of_int (Z.to_int v).

Definition evaluate (expression : string) : completion string :=
  match lex expression None with
  | Some ts =>
      match parse (3 * length ts + 3) Sum ts with
      | Some (v, []) => Normal (showZ v)
      | _ => Throw
      end
  | None => Throw
  end.

Definition host : Host :=
  {| dateToLocaleString := "1/1/2025, 12:00:00 AM";
     randomIndex := 0;
     evalFunction := evaluate;
     fullscreenElement := false;
     fullscreenCall := Normal tt |}.

End Arith.

(* ================================================================== *)
(** ** Vocabulary of the specification *)

(** The state after the input's [onChange] delivered [text]. *)
Definition withInput (text : string) (r : State) : State :=
  {| history := history r; currentCommand := Str text;
     commandHistory := commandHistory r; historyIndex := historyIndex r;
     showMatrix := showMatrix r; isFullscreen := isFullscreen r;
     isMinimized := isMinimized r; terminalColor := terminalColor r |}.

(** The queued state at the moment Enter calls [handleCommand]. *)
Definition atSubmit (command : string) (r : State) : State :=
  {| history := history r; currentCommand := currentCommand r;
     commandHistory := command :: commandHistory r; historyIndex := (-1)%Z;
     showMatrix := showMatrix r; isFullscreen := isFullscreen r;
     isMinimized := isMinimized r; terminalColor := terminalColor r |}.

(** The first white-space delimited token of a line. *)
Fixpoint firstToken (s : string) : string :=
  match s with
  | EmptyString => EmptyString
  | String c s' => if isWhiteSpace c then EmptyString
                   else String c (firstToken s')
  end.

Fixpoint hasNewline (s : string) : bool :=
  match s with
  | EmptyString => false
  | String c s' => Ascii.eqb c LF || hasNewline s'
  end.

(** The lines of a help text that enumerate a command. *)
Definition enumerated (lines : list string) : list string :=
  filter (fun line => startsWith line "- ") lines.

(** The names matched by the [switch]. *)
Definition exactNames : list string :=
  [ "help"; "clear"; "date"; "matrix"; "whoami"; "systeminfo"; "joke" ].

(** The history cursor is [-1] or an index into the command history. *)
Definition cursorInRange (r : State) : Prop :=
  (-1 <= historyIndex r <= Z.of_nat (length (commandHistory r)) - 1)%Z.

(** Two states that differ at most in the history cursor and in the line
    buffer. *)
Definition sameButCursorAndInput (r r' : State) : Prop :=
  history r' = history r /\
  commandHistory r' = commandHistory r /\
  showMatrix r' = showMatrix r /\
  isFullscreen r' = isFullscreen r /\
  isMinimized r' = isMinimized r /\
  terminalColor r' = terminalColor r.

(** The line buffer holds a string. *)
Definition inputIsString (r : State) : Prop :=
  exists typed : string, currentCommand r = Str typed.

(** The state after the fullscreen flag was set. *)
Definition withFullscreen (v : bool) (r : State) : State :=
  {| history := history r; currentCommand := currentCommand r;
     commandHistory := commandHistory r; historyIndex := historyIndex r;
     showMatrix := showMatrix r; isFullscreen := v;
     isMinimized := isMinimized r; terminalColor := terminalColor r |}.

(** A text of digits, spaces and the signs [+ - * / ( ) .] only.  It holds
    no name, so its evaluation can reach and change nothing. *)
Fixpoint arithmeticText (s : string) : bool :=
  match s with
  | EmptyString => true
  | String c s' =>
      (let n := N_of_ascii c in
       ((48 <=? n) && (n <=? 57) || (n =? 32) || (40 <=? n) && (n <=? 43)
        || (45 <=? n) && (n <=? 47))%N)
      && arithmeticText s'
  end.

(** A command whose handling runs no code of the user's and passes no
    inherited member to a setter: a [calc ] line only with an arithmetic
    text, a [color ] line only with a token that is no inherited member. *)
Definition plainLine (command : string) : bool :=
  if startsWith command "calc " then arithmeticText (slice command 5)
  else if startsWith command "color " then
    match getProperty colorMap (slice command 6) with
    | Inherited _ => false
    | Undefined | Str _ => true
    end
  else true.

(** Enter on a plain line, or any other event. *)
Definition plainEvent (r : State) (e : Event) : bool :=
  match e, currentCommand r with
  | KeyDown Enter, Str typed => plainLine (trim typed)
  | _, _ => true
  end.

(** The events the rendered view can deliver: the minimized view is the
    bar alone, whose click is [toggleMinimize]; the full view has the
    input and the three buttons. *)
Definition deliverable (r : State) (e : Event) : bool :=
  match e with
  | MinimizeClick => true
  | KeyDown _ | Change _ | CloseClick | FullscreenClick =>
      negb (isMinimized r)
  end.

(** The states of a session: the initial one and every state that an event
    the view can deliver leads to, with any host at any event, as long as
    the submitted lines are plain. *)
Inductive reachable : State -> Prop :=
| reachable_initial : reachable initialState
| reachable_step (h : Host) (e : Event) (r : State) :
    reachable r ->
    deliverable r e = true ->
    plainEvent r e = true ->
    reachable (step h e r).

(** The scrollback after Enter when the handler returned [response]. *)
Definition appended (r : State) (command : string)
           (response : option string) : list string :=
  (filter truthyString (history r)
     ++ ("> " ++ command)%string
          :: filter truthyString (processOutput response))%list.

(** *** generateMatrix

    [draws k] is the outcome of [Math.random() > 0.5] at the k-th call of
    one rendering; [Array.from] calls its callback by increasing index, so
    the cell of row i and column j takes the draw 80 i + j. *)
Definition matrixCell (draw : bool) : string := if draw then "1" else "0".

(** [arr.join('')]. *)
Definition joinEmpty (cells : list string) : string :=
  fold_right String.append "" cells.

Definition matrixRow (draws : nat -> bool) (row : nat) : string :=
  joinEmpty (map (fun col => matrixCell (draws (row * 80 + col))) (seq 0 80)).

Definition generateMatrix (draws : nat -> bool) : list string :=
  map (matrixRow draws) (seq 0 20).

(** A string of binary digits. *)
Fixpoint binaryDigits (s : string) : bool :=
  match s with
  | EmptyString => true
  | String c s' => (Ascii.eqb c "0" || Ascii.eqb c "1") && binaryDigits s'
  end.

(** A line of white space only. *)
Fixpoint allWhiteSpace (s : string) : bool :=
  match s with
  | EmptyString => true
  | String c s' => isWhiteSpace c && allWhiteSpace s'
  end.

Fixpoint countNewlines (s : string) : nat :=
  match s with
  | EmptyString => 0
  | String c s' => (if Ascii.eqb c LF then 1 else 0) + countNewlines s'
  end.

(** A sequence of events, each with the host of its moment. *)
Definition stepAll (es : list (Host * Event)) (r : State) : State :=
  fold_left (fun st he => step (fst he) (snd he) st) es r.

(** The clicks on the minimize and close buttons. *)
Definition isWindowClick (e : Event) : bool :=
  match e with
  | CloseClick | MinimizeClick => true
  | KeyDown _ | Change _ | FullscreenClick => false
  end.

Definition isMinimizeClick (e : Event) : bool :=
  match e with MinimizeClick => true | _ => false end.

Definition isCloseClick (e : Event) : bool :=
  match e with CloseClick => true | _ => false end.

(** The cursor is on an entry and the line buffer mirrors that entry. *)
Definition browsing (r : State) : Prop :=
  (0 <= historyIndex r <= Z.of_nat (length (commandHistory r)) - 1)%Z /\
  currentCommand r = index (commandHistory r) (historyIndex r).

(** A command as Enter stores it: trimmed and not empty. *)
Definition storedCommand (c : string) : Prop := c <> "" /\ trim c = c.

(* ================================================================== *)
(** ** The primitives *)

Lemma toLowerCase_app (s t : string) :
  toLowerCase (s ++ t) = toLowerCase s ++ toLowerCase t.
Proof.
  induction s as [|c s IH]; simpl; [reflexivity|].
  now rewrite IH.
Qed.

Lemma trimEnd_cons (c : ascii) (s : string) :
  trimEnd s <> "" -> trimEnd (String c s) = String c (trimEnd s).
Proof.
  intros Hne. simpl. destruct (trimEnd s); [contradiction|reflexivity].
Qed.

Lemma trimEnd_app_fixed (p s : string) :
  s <> "" -> trimEnd s = s -> trimEnd (p ++ s) = p ++ s.
Proof.
  intros Hne Hfix. induction p as [|c p IH]; simpl append; [exact Hfix|].
  rewrite trimEnd_cons; rewrite IH; [reflexivity|].
  destruct p; simpl; [exact Hne|discriminate].
Qed.

Lemma split_without_separator (s : string) :
  hasNewline s = false -> split s LF = [s].
Proof.
  induction s as [|c s IH]; simpl; [reflexivity|].
  intros H. apply orb_false_iff in H as [Hc Hs].
  rewrite Hc, (IH Hs). reflexivity.
Qed.

Lemma truthyString_true (s : string) : truthyString s = true <-> s <> "".
Proof. destruct s; simpl; split; congruence. Qed.

(* ================================================================== *)
(** ** One submitted line *)

Lemma step_change (h : Host) (text : string) (r : State) :
  step h (Change text) r = withInput text r.
Proof. reflexivity. Qed.

(** Enter on a line whose trimmed text is not empty: the scrollback of the
    next render is built from the rendered scrollback, whatever the handler
    queued for it; the other variables are the ones the handler queued. *)
Lemma submitLine_response (h : Host) (text : string) (r : State)
      (response : option string) (nxt : State) :
  truthyString (trim text) = true ->
  handleCommand h (withInput text r) (trim text)
                (atSubmit (trim text) (withInput text r))
    = (Normal response, nxt) ->
  submitLine h text r =
    {| history := appended r (trim text) response;
       currentCommand := Str "";
       commandHistory := commandHistory nxt;
       historyIndex := historyIndex nxt;
       showMatrix := showMatrix nxt;
       isFullscreen := isFullscreen nxt;
       isMinimized := isMinimized nxt;
       terminalColor := terminalColor nxt |}.
Proof.
  intros Hcmd Hresp.
  unfold submitLine. rewrite step_change.
  unfold step, run, handle, handleKeyPress.
  cbn [currentCommand withInput]. rewrite Hcmd.
  match goal with |- _ = ?next => change
         (snd ((response0 <- handleCommand h (withInput text r) (trim text) ;;
                setHistory
                  (filter truthyString
                     (history (withInput text r) ++
                      [("> " ++ trim text)%string]
                        ++ processOutput response0)%list) ;;
                setCurrentCommand (Str ""))
                 (atSubmit (trim text) (withInput text r))) = next) end.
  unfold bind at 1.
  rewrite Hresp. unfold bind, setHistory, setCurrentCommand. cbn [snd].
  cbn [history currentCommand commandHistory historyIndex showMatrix
       isFullscreen isMinimized terminalColor withInput].
  unfold appended. f_equal.
  rewrite filter_app. f_equal.
Qed.

(** Rewrites the state after a closed submitted line with the response the
    handler computes for it. *)
Ltac submitted :=
  erewrite submitLine_response; [ | reflexivity | lazy; reflexivity ].

(* ================================================================== *)
(** ** clear *)

(** The [clear] case queues the empty scrollback and returns [null]. *)
Lemma handleCommand_clear (h : Host) (r nxt : State) (command : string) :
  toLowerCase command = "clear" ->
  handleCommand h r command nxt = (Normal None, snd (setHistory [] nxt)) /\
  history (snd (setHistory [] nxt)) = [].
Proof.
  intros Hlc. unfold handleCommand. rewrite Hlc. split; reflexivity.
Qed.

(** C1, on the code.  Enter on the line [clear] queues the empty scrollback
    inside [handleCommand] and then queues, from the rendered scrollback,
    the old lines followed by the echoed [> clear]; the second value is the
    one the next render shows.  So the scrollback is never empty after
    [clear], and the echoed line is appended: from the two welcome lines
    the scrollback becomes those two lines and [> clear]. *)
Theorem clear_keeps_scrollback :
  (forall (h : Host) (r : State),
      history (submitLine h "clear" r)
        = (filter truthyString (history r) ++ ["> clear"])%list /\
      history (submitLine h "clear" r) <> []) /\
  history (submitLine Arith.host "clear" initialState)
    = (history initialState ++ ["> clear"])%list.
Proof.
  split; [|reflexivity].
  intros h r.
  assert (E : history (submitLine h "clear" r)
              = (filter truthyString (history r) ++ ["> clear"])%list).
  { submitted. reflexivity. }
  split; [exact E|].
  rewrite E. intros Habs. apply app_eq_nil in Habs as [_ Habs].
  discriminate.
Qed.

(* ================================================================== *)
(** ** help *)

Lemma processOutput_help : processOutput (Some helpText) = helpLines.
Proof. reflexivity. Qed.

(** C3 as stated fails: after [help] the lines appended below the echoed
    input cannot be nine enumerated commands. *)
Lemma help_nine_commands_counterexample :
  ~ (exists lines : list string,
        history (submitLine Arith.host "help" initialState)
          = (history initialState ++ "> help" :: lines)%list /\
        length (enumerated lines) = 9).
Proof.
  intros [lines [Hhist Hnine]].
  vm_compute in Hhist. injection Hhist as Hlines.
  subst lines. discriminate Hnine.
Qed.

(** C3, amended.  Submitting [help] appends the echoed input and then the
    fixed help text, one scrollback entry per line of the text: eleven
    entries, a heading and ten enumerated commands. *)
Theorem help_appends_fixed_text (h : Host) (r : State) :
  history (submitLine h "help" r)
    = (filter truthyString (history r) ++ "> help" :: helpLines)%list /\
  split helpText LF = helpLines /\
  length helpLines = 11 /\
  enumerated helpLines = tl helpLines /\
  length (enumerated helpLines) = 10.
Proof.
  split; [|repeat split].
  submitted. reflexivity.
Qed.

(* ================================================================== *)
(** ** Empty and absent output *)

(** C4 as stated fails: the empty string is not turned into a blank line,
    and the line [echo ] leaves no blank line in the scrollback. *)
Lemma empty_output_blank_line_counterexample :
  processOutput (Some "") <> [""] /\
  ~ In "" (history (submitLine Arith.host "echo " initialState)).
Proof.
  split; [discriminate|].
  vm_compute. intros H.
  repeat (destruct H as [H|H]; [discriminate H|]). exact H.
Qed.

(** C4, amended.  A handler result of [null] and a handler result that is
    the empty string both append zero output lines.  The submitted line
    [echo ] is trimmed to [echo] before it is interpreted, so it is answered
    by the unknown-command message; the handler applied to the untrimmed
    [echo ] returns the empty string, which appends nothing either. *)
Theorem empty_output_appends_nothing (h : Host) (r nxt : State) :
  processOutput None = [] /\
  processOutput (Some "") = [] /\
  handleCommand h r "echo " nxt = (Normal (Some ""), nxt) /\
  appended r "echo " (Some "")
    = (filter truthyString (history r) ++ ["> echo "])%list /\
  history (submitLine h "echo " r)
    = (filter truthyString (history r)
         ++ ["> echo"; commandNotFound "echo"])%list.
Proof.
  repeat split.
  submitted. reflexivity.
Qed.

(* ================================================================== *)
(** ** Exact commands *)

(** C5 as stated fails: the first token of [help me] is [help], and the
    line is answered by the unknown-command message, not by the help
    text. *)
Lemma first_token_help_counterexample :
  toLowerCase (firstToken "help me") = "help" /\
  handleCommand Arith.host initialState "help me" initialState
    = (Normal (Some (commandNotFound "help me")), initialState) /\
  commandNotFound "help me" <> helpText /\
  history (submitLine Arith.host "help me" initialState)
    = (history initialState
         ++ ["> help me"; commandNotFound "help me"])%list.
Proof. repeat split. discriminate. Qed.

(** C5, amended.  The interpreter matches an exact command when the whole
    submitted line, compared case-insensitively, equals one of [help],
    [clear], [date], [matrix], [whoami], [systeminfo], [joke]: the line is
    then answered by that command's case, whatever its letter case.  A line
    with further tokens after the name is not an exact match. *)
Theorem exact_command_matches_whole_line
        (h : Host) (r nxt : State) (command : string) :
  (toLowerCase command = "help" ->
   handleCommand h r command nxt = (Normal (Some helpText), nxt)) /\
  (toLowerCase command = "clear" ->
   handleCommand h r command nxt = (Normal None, snd (setHistory [] nxt))) /\
  (toLowerCase command = "date" ->
   handleCommand h r command nxt
     = (Normal (Some (dateToLocaleString h)), nxt)) /\
  (toLowerCase command = "matrix" ->
   handleCommand h r command nxt
     = (Normal (Some "Matrix mode toggled..."),
        snd (setShowMatrix (negb (showMatrix r)) nxt))) /\
  (toLowerCase command = "whoami" ->
   handleCommand h r command nxt = (Normal (Some "guest@TechOS"), nxt)) /\
  (toLowerCase command = "systeminfo" ->
   handleCommand h r command nxt = (Normal (Some systeminfoText), nxt)) /\
  (toLowerCase command = "joke" ->
   handleCommand h r command nxt
     = (Normal (nth_error jokes (randomIndex h)), nxt)).
Proof.
  repeat split; intros Hlc; unfold handleCommand; rewrite Hlc; reflexivity.
Qed.

Lemma exact_command_matches_whole_line_witness :
  toLowerCase "HeLp" = "help" /\
  handleCommand Arith.host initialState "HeLp" initialState
    = (Normal (Some helpText), initialState).
Proof.
  split; [reflexivity|].
  apply (proj1 (exact_command_matches_whole_line
                  Arith.host initialState initialState "HeLp")).
  reflexivity.
Defined.

(** A line that is no exact name in any letter case and starts with none
    of the three prefixes is answered by the unknown-command message, which
    repeats the line as it was typed. *)
Lemma unmatched_line_is_not_found
      (h : Host) (r nxt : State) (command : string) :
  ~ In (toLowerCase command) exactNames ->
  startsWith command "echo " = false ->
  startsWith command "color " = false ->
  startsWith command "calc " = false ->
  handleCommand h r command nxt
    = (Normal (Some (commandNotFound command)), nxt).
Proof.
  intros Hexact Hecho Hcolor Hcalc. unfold handleCommand.
  unfold exactNames in Hexact. cbn [In] in Hexact.
  repeat match goal with
         | |- context [(toLowerCase command =? ?name)%string] =>
             destruct (String.eqb_spec (toLowerCase command) name);
             [exfalso; apply Hexact; rewrite e; tauto|]
         end.
  rewrite Hecho, Hcolor, Hcalc. reflexivity.
Qed.

(* ================================================================== *)
(** ** echo *)

(** The handler returns the text after the prefix [echo ] as it is. *)
Lemma handleCommand_echo (h : Host) (r nxt : State) (X : string) :
  handleCommand h r ("echo " ++ X) nxt = (Normal (Some X), nxt).
Proof. reflexivity. Qed.

Lemma trim_echo (X : string) :
  X <> "" -> trimEnd X = X -> trim ("echo " ++ X) = "echo " ++ X.
Proof.
  intros Hne Hfix. unfold trim.
  change (trimStart ("echo " ++ X)) with ("echo " ++ X).
  now apply trimEnd_app_fixed.
Qed.

(** C6 as stated fails: [hi ] holds no newline, and the output of
    [echo hi ] is not [hi ] (it is [hi]). *)
Lemma echo_trailing_space_counterexample :
  hasNewline "hi " = false /\
  ~ (exists echoed : string,
        history (submitLine Arith.host ("echo " ++ "hi ") initialState)
          = (history initialState ++ [echoed; "hi "])%list) /\
  history (submitLine Arith.host ("echo " ++ "hi ") initialState)
    = (history initialState ++ ["> echo hi"; "hi"])%list.
Proof.
  split; [reflexivity|]. split; [|reflexivity].
  intros [echoed Hhist]. vm_compute in Hhist. discriminate Hhist.
Qed.

(** C6, amended.  For every string X that holds no newline, is not empty
    and does not end in white space, submitting [echo X] appends the echoed
    input and exactly one output line equal to X. *)
Theorem echo_round_trip (h : Host) (r : State) (X : string) :
  hasNewline X = false -> X <> "" -> trimEnd X = X ->
  history (submitLine h ("echo " ++ X) r)
    = (filter truthyString (history r)
         ++ [("> echo " ++ X)%string; X])%list.
Proof.
  intros Hnl Hne Hfix.
  assert (Htruthy : truthyString X = true) by now apply truthyString_true.
  erewrite submitLine_response;
    [ | rewrite (trim_echo X Hne Hfix); reflexivity
      | rewrite (trim_echo X Hne Hfix); apply handleCommand_echo ].
  cbn [history]. unfold appended, processOutput. cbn [truthyOpt].
  rewrite Htruthy. cbn [negb].
  rewrite (split_without_separator X Hnl). cbn [filter].
  rewrite Htruthy, (trim_echo X Hne Hfix). reflexivity.
Qed.

Lemma echo_round_trip_witness :
  hasNewline "  Hello, World" = false /\
  trimEnd "  Hello, World" = "  Hello, World" /\
  history (submitLine Arith.host ("echo " ++ "  Hello, World") initialState)
    = (filter truthyString (history initialState)
         ++ ["> echo   Hello, World"; "  Hello, World"])%list.
Proof.
  split; [reflexivity|]. split; [reflexivity|].
  apply (echo_round_trip Arith.host initialState "  Hello, World").
  - reflexivity.
  - discriminate.
  - reflexivity.
Defined.

(* ================================================================== *)
(** ** color *)

(** The three own entries of the table are found as they are written. *)
Lemma colorMap_own :
  getProperty colorMap "green" = Str "#00ff00" /\
  getProperty colorMap "blue" = Str "#00ffff" /\
  getProperty colorMap "purple" = Str "#ff00ff".
Proof. repeat split. Qed.

(** A lookup finds nothing exactly when the key is neither an own entry nor
    a member inherited from the prototype. *)
Lemma getProperty_absent (key : string) :
  ~ In key (map fst colorMap) ->
  ~ In key objectPrototypeKeys ->
  getProperty colorMap key = Undefined.
Proof.
  intros Hown Hinh. unfold getProperty.
  assert (Hnone : ownProperty colorMap key = None).
  { unfold colorMap in *. cbn [ownProperty]. cbn [map fst In] in Hown.
    destruct (String.eqb_spec "green" key); [tauto|].
    destruct (String.eqb_spec "blue" key); [tauto|].
    destruct (String.eqb_spec "purple" key); [tauto|]. reflexivity. }
  rewrite Hnone.
  destruct (existsb (String.eqb key) objectPrototypeKeys) eqn:Hex;
    [|reflexivity].
  apply existsb_exists in Hex as [k [Hin Heq]].
  apply String.eqb_eq in Heq. subst k. contradiction.
Qed.

(** The scenarios of C7 that hold: [color blue] sets the blue value, and a
    token that is neither in the table nor inherited, such as
    [ultraviolet], changes no color and is answered by the unknown-command
    message for the whole line. *)
Lemma color_scenarios (h : Host) (r : State) :
  terminalColor (submitLine h "color blue" r) = Str "#00ffff" /\
  terminalColor (submitLine h "color ultraviolet" r) = terminalColor r /\
  history (submitLine h "color ultraviolet" r)
    = (filter truthyString (history r)
         ++ ["> color ultraviolet";
             commandNotFound "color ultraviolet"])%list.
Proof.
  repeat split;
    submitted; reflexivity.
Qed.

Lemma handleCommand_color_absent (h : Host) (r nxt : State) (token : string) :
  getProperty colorMap token = Undefined ->
  handleCommand h r ("color " ++ token) nxt
    = (Normal (Some (commandNotFound ("color " ++ token))), nxt).
Proof.
  intros Habsent. unfold handleCommand.
  rewrite toLowerCase_app.
  change (toLowerCase "color ") with "color ".
  cbn -[getProperty colorMap commandNotFound]. rewrite Habsent.
  reflexivity.
Qed.

(** C7, on the code.  [__proto__] and [constructor] are no entries of the
    color table, yet the lookup [colorMap[color]] finds the members of those
    names that the object literal inherits, and they are truthy: the lines
    [color __proto__] and [color constructor] pass the member to
    [setTerminalColor] and are answered by the confirmation line, not by
    the unknown-command message.  After [color __proto__] the terminal
    color is the prototype object. *)
Theorem color_inherited_member_is_accepted :
  ~ In "__proto__" (map fst colorMap) /\
  ~ In "constructor" (map fst colorMap) /\
  forall (h : Host) (r : State),
    terminalColor (submitLine h "color __proto__" r)
      = Inherited "__proto__" /\
    history (submitLine h "color __proto__" r)
      = (filter truthyString (history r)
           ++ ["> color __proto__";
               "Terminal color changed to __proto__"])%list /\
    history (submitLine h "color constructor" r)
      = (filter truthyString (history r)
           ++ ["> color constructor";
               "Terminal color changed to constructor"])%list.
Proof.
  split; [|split].
  - cbn. intros [H|[H|[H|H]]]; try discriminate H. exact H.
  - cbn. intros [H|[H|[H|H]]]; try discriminate H. exact H.
  - intros h r. repeat split; submitted; reflexivity.
Qed.

(** Every token that is neither in the table nor an inherited member is
    answered by the unknown-command message and leaves the color alone. *)
Lemma color_unknown_token (h : Host) (r : State) (token : string) :
  ~ In token (map fst colorMap) ->
  ~ In token objectPrototypeKeys ->
  forall nxt : State,
    handleCommand h r ("color " ++ token) nxt
      = (Normal (Some (commandNotFound ("color " ++ token))), nxt).
Proof.
  intros Hown Hinh nxt. apply handleCommand_color_absent.
  now apply getProperty_absent.
Qed.

(** C10.  For each of the tokens [green], [blue] and [purple], submitting
    [color c] appends the echoed input and exactly one output line
    [Terminal color changed to c], and stores the table's value for c. *)
Theorem color_confirmation_line (h : Host) (r : State) (c : string) :
  In c ["green"; "blue"; "purple"] ->
  history (submitLine h ("color " ++ c) r)
    = (filter truthyString (history r)
         ++ [("> color " ++ c)%string;
             ("Terminal color changed to " ++ c)%string])%list /\
  terminalColor (submitLine h ("color " ++ c) r) = getProperty colorMap c.
Proof.
  intros [Hc|[Hc|[Hc|[]]]]; subst c; split;
    submitted;
    reflexivity.
Qed.

Lemma color_confirmation_line_witness :
  In "purple" ["green"; "blue"; "purple"] /\
  history (submitLine Arith.host "color purple" initialState)
    = (history initialState
         ++ ["> color purple"; "Terminal color changed to purple"])%list /\
  terminalColor (submitLine Arith.host "color purple" initialState)
    = Str "#ff00ff".
Proof.
  split; [simpl; tauto|].
  apply (color_confirmation_line Arith.host initialState "purple").
  simpl; tauto.
Defined.

(* ================================================================== *)
(** ** calc *)


(** No call of [handleCommand] completes by a throw. *)
Lemma handleCommand_returns (h : Host) (r nxt : State) (command : string) :
  exists (response : option string) (nxt' : State),
    handleCommand h r command nxt = (Normal response, nxt').
Proof.
  unfold handleCommand.
  repeat match goal with
         | |- context [if ?b then _ else _] => destruct b
         end;
    cbv beta zeta;
    try (unfold bind, ret, setHistory, setShowMatrix, setTerminalColor;
         eexists; eexists; reflexivity).
  all: unfold tryCatch, bind, call, ret;
    destruct (evalFunction h (slice command 5));
    eexists; eexists; reflexivity.
Qed.

(** The variables [handleCommand] never queues. *)
Lemma handleCommand_frame (h : Host) (r nxt nxt' : State)
      (command : string) (response : completion (option string)) :
  handleCommand h r command nxt = (response, nxt') ->
  currentCommand nxt' = currentCommand nxt /\
  commandHistory nxt' = commandHistory nxt /\
  historyIndex nxt' = historyIndex nxt.
Proof.
  unfold handleCommand.
  repeat match goal with
         | |- context [if ?b then _ else _] => destruct b
         end;
    cbv beta zeta;
    unfold tryCatch, bind, call, ret, setHistory, setShowMatrix,
      setTerminalColor;
    try destruct (evalFunction h (slice command 5));
    intros Heq; injection Heq as _ Hnxt; subst nxt'; repeat split.
Qed.



(* ================================================================== *)
(** ** History navigation *)

Lemma index_in_range (arr : list string) (i : Z) :
  (0 <= i < Z.of_nat (length arr))%Z ->
  exists s : string, index arr i = Str s /\ nth_error arr (Z.to_nat i) = Some s.
Proof.
  intros Hi. unfold index.
  destruct (Z.ltb_spec i 0); [lia|].
  destruct (nth_error arr (Z.to_nat i)) as [s|] eqn:Hnth.
  - exists s. split; reflexivity.
  - apply nth_error_None in Hnth. lia.
Qed.

(** Previous: one step towards the oldest entry, or nothing at the oldest
    entry and on an empty history. *)
Lemma navigate_previous (h : Host) (r : State) :
  navigate h Previous r =
    if (historyIndex r <? Z.of_nat (length (commandHistory r)) - 1)%Z
    then {| history := history r;
            currentCommand := index (commandHistory r) (historyIndex r + 1);
            commandHistory := commandHistory r;
            historyIndex := (historyIndex r + 1)%Z;
            showMatrix := showMatrix r; isFullscreen := isFullscreen r;
            isMinimized := isMinimized r; terminalColor := terminalColor r |}
    else r.
Proof.
  unfold navigate, step, run, handle, handleKeyPress.
  destruct (historyIndex r <? Z.of_nat (length (commandHistory r)) - 1)%Z;
    reflexivity.
Qed.

(** Next: one step towards the newest entry, back to the live line from the
    newest entry, or nothing when not browsing. *)
Lemma navigate_next (h : Host) (r : State) :
  navigate h Next r =
    if (historyIndex r >? 0)%Z
    then {| history := history r;
            currentCommand := index (commandHistory r) (historyIndex r - 1);
            commandHistory := commandHistory r;
            historyIndex := (historyIndex r - 1)%Z;
            showMatrix := showMatrix r; isFullscreen := isFullscreen r;
            isMinimized := isMinimized r; terminalColor := terminalColor r |}
    else if (historyIndex r =? 0)%Z
    then {| history := history r;
            currentCommand := Str "";
            commandHistory := commandHistory r;
            historyIndex := (-1)%Z;
            showMatrix := showMatrix r; isFullscreen := isFullscreen r;
            isMinimized := isMinimized r; terminalColor := terminalColor r |}
    else r.
Proof.
  unfold navigate, step, run, handle, handleKeyPress.
  destruct (historyIndex r >? 0)%Z; [reflexivity|].
  destruct (historyIndex r =? 0)%Z; reflexivity.
Qed.

(** C2 as stated fails: after [a] and then [b] were submitted, the first
    Previous shows [b], not [a]. *)
Lemma previous_shows_newest_counterexample :
  let r := submitLine Arith.host "b" (submitLine Arith.host "a" initialState) in
  commandHistory r = ["b"; "a"] /\
  historyIndex r = (-1)%Z /\
  currentCommand (navigate Arith.host Previous r) = Str "b" /\
  currentCommand (navigate Arith.host Previous r) <> Str "a".
Proof. repeat split. discriminate. Qed.

(** C2, amended.  With command history [[b, a]] (a submitted first, then b)
    and the cursor at -1, three consecutive Previous navigations set the
    line buffer to [b], then to [a], and then change nothing: the buffer
    stays at [a]. *)
Theorem previous_walks_newest_to_oldest
        (h : Host) (r : State) (a b : string) :
  commandHistory r = [b; a] ->
  historyIndex r = (-1)%Z ->
  let r1 := navigate h Previous r in
  let r2 := navigate h Previous r1 in
  let r3 := navigate h Previous r2 in
  currentCommand r1 = Str b /\
  currentCommand r2 = Str a /\
  r3 = r2 /\
  currentCommand r3 = Str a.
Proof.
  intros Hhist Hidx r1 r2 r3. subst r3 r2 r1.
  destruct r as [hist cur cmds idx matrix full mini color].
  cbn in Hhist, Hidx. subst cmds idx.
  repeat split.
Qed.

Lemma previous_walks_newest_to_oldest_witness :
  let r := submitLine Arith.host "b" (submitLine Arith.host "a" initialState) in
  let r1 := navigate Arith.host Previous r in
  let r2 := navigate Arith.host Previous r1 in
  let r3 := navigate Arith.host Previous r2 in
  commandHistory r = ["b"; "a"] /\
  historyIndex r = (-1)%Z /\
  currentCommand r1 = Str "b" /\
  currentCommand r2 = Str "a" /\
  r3 = r2 /\
  currentCommand r3 = Str "a".
Proof.
  intros r. split; [reflexivity|]. split; [reflexivity|].
  apply (previous_walks_newest_to_oldest Arith.host r "a" "b");
    reflexivity.
Defined.

(** One navigation keeps the cursor in range and touches nothing but the
    cursor and the line buffer, which then holds a string. *)
Lemma navigate_invariant (h : Host) (d : Direction) (r : State) :
  cursorInRange r ->
  cursorInRange (navigate h d r) /\
  sameButCursorAndInput r (navigate h d r) /\
  (inputIsString r -> inputIsString (navigate h d r)).
Proof.
  unfold cursorInRange, sameButCursorAndInput, inputIsString.
  intros Hrange. destruct d.
  - rewrite navigate_previous.
    destruct (Z.ltb_spec (historyIndex r)
                         (Z.of_nat (length (commandHistory r)) - 1));
      cbn; repeat split; try lia; try tauto.
    intros _.
    destruct (index_in_range (commandHistory r) (historyIndex r + 1))
      as [s [Hs _]]; [lia|eauto].
  - rewrite navigate_next. rewrite Z.gtb_ltb.
    destruct (Z.ltb_spec 0 (historyIndex r)).
    + cbn; repeat split; try lia.
      intros _.
      destruct (index_in_range (commandHistory r) (historyIndex r - 1))
        as [s [Hs _]]; [lia|eauto].
    + destruct (Z.eqb_spec (historyIndex r) 0);
        cbn; repeat split; try lia; try tauto.
      intros _. eauto.
Qed.

(** C8.  From a state whose cursor is within [-1, N-1], N the length of
    the command history, every finite sequence of Previous and Next
    navigations leaves the cursor within [-1, N-1] and changes neither the
    command history nor anything else but the cursor and the line
    buffer. *)
Theorem navigation_keeps_cursor_in_range
        (h : Host) (ds : list Direction) (r : State) :
  cursorInRange r ->
  cursorInRange (navigateAll h ds r) /\
  commandHistory (navigateAll h ds r) = commandHistory r /\
  sameButCursorAndInput r (navigateAll h ds r).
Proof.
  revert r. induction ds as [|d ds IH]; intros r Hrange.
  - split; [exact Hrange|]. split; [reflexivity|]. repeat split.
  - change (navigateAll h (d :: ds) r)
      with (navigateAll h ds (navigate h d r)).
    destruct (navigate_invariant h d r Hrange) as [Hr [Hsame _]].
    destruct (IH _ Hr) as [Hr' [Hhist Hsame']].
    split; [exact Hr'|].
    destruct Hsame as (S1 & S2 & S3 & S4 & S5 & S6).
    destruct Hsame' as (T1 & T2 & T3 & T4 & T5 & T6).
    split; [congruence|].
    unfold sameButCursorAndInput. repeat split; congruence.
Qed.

Lemma navigation_keeps_cursor_in_range_witness :
  let r := submitLine Arith.host "b" (submitLine Arith.host "a" initialState) in
  let ds := [Previous; Previous; Previous; Next; Next; Next; Next; Previous] in
  cursorInRange r /\
  cursorInRange (navigateAll Arith.host ds r) /\
  commandHistory (navigateAll Arith.host ds r) = commandHistory r /\
  sameButCursorAndInput r (navigateAll Arith.host ds r).
Proof.
  intros r ds.
  assert (Hr : cursorInRange r) by (unfold cursorInRange; cbn; lia).
  split; [exact Hr|].
  apply (navigation_keeps_cursor_in_range Arith.host ds r Hr).
Defined.

(* ================================================================== *)
(** ** Every state of a session *)

Lemma withInput_same (r : State) (typed : string) :
  currentCommand r = Str typed -> withInput typed r = r.
Proof. destruct r; cbn; intros Hcur; subst; reflexivity. Qed.

(** The fullscreen button sets the flag after the document took the
    request, and touches nothing else. *)
Lemma step_fullscreen (h : Host) (r : State) :
  step h FullscreenClick r =
    withFullscreen match fullscreenCall h with
                   | Normal _ => negb (fullscreenElement h)
                   | Throw => isFullscreen r
                   end r.
Proof.
  unfold step, run, handle, toggleFullscreen.
  destruct r, (fullscreenElement h), (fullscreenCall h); reflexivity.
Qed.

(** Enter on a typed line: nothing happens on a blank line; otherwise the
    line goes to the front of the command history and the cursor is reset. *)
Lemma step_enter (h : Host) (r : State) (typed : string) :
  currentCommand r = Str typed ->
  (truthyString (trim typed) = false /\ step h (KeyDown Enter) r = r) \/
  (truthyString (trim typed) = true /\
   commandHistory (step h (KeyDown Enter) r) = trim typed :: commandHistory r /\
   historyIndex (step h (KeyDown Enter) r) = (-1)%Z /\
   currentCommand (step h (KeyDown Enter) r) = Str "").
Proof.
  intros Hcur.
  destruct (truthyString (trim typed)) eqn:Hcmd; [right|left]; split;
    try reflexivity.
  - destruct (handleCommand_returns h (withInput typed r)
                (atSubmit (trim typed) (withInput typed r)) (trim typed))
      as [response [nxt Hresp]].
    destruct (handleCommand_frame _ _ _ _ _ _ Hresp) as [_ [Hcmds Hidx]].
    pose proof (submitLine_response h typed r response nxt Hcmd Hresp) as E.
    unfold submitLine in E. rewrite step_change in E.
    rewrite (withInput_same r typed Hcur) in E.
    rewrite E. cbn. rewrite Hcmds, Hidx.
    rewrite (withInput_same r typed Hcur). repeat split.
  - unfold step, run, handle, handleKeyPress. rewrite Hcur, Hcmd.
    reflexivity.
Qed.

(** In every state of a session the cursor is within [-1, N-1] and the
    line buffer holds a string. *)
Lemma reachable_invariant (r : State) :
  reachable r -> cursorInRange r /\ inputIsString r.
Proof.
  induction 1 as [|h e r Hreach [Hrange [typed Hcur]] _ _].
  - split; [unfold cursorInRange; cbn; lia|]. exists "". reflexivity.
  - destruct e as [[| | |]| | | |].
    + destruct (step_enter h r typed Hcur)
        as [[_ Hsame]|[_ [Hcmds [Hidx Hinput]]]].
      * rewrite Hsame. split; [exact Hrange|]. exists typed. exact Hcur.
      * split; [|exists ""; exact Hinput].
        unfold cursorInRange. rewrite Hcmds, Hidx. cbn [length]. lia.
    + destruct (navigate_invariant h Previous r Hrange) as [Hr [_ Hin]].
      split; [exact Hr|]. apply Hin. exists typed. exact Hcur.
    + destruct (navigate_invariant h Next r Hrange) as [Hr [_ Hin]].
      split; [exact Hr|]. apply Hin. exists typed. exact Hcur.
    + split; [exact Hrange|]. exists typed. exact Hcur.
    + split; [exact Hrange|]. eexists. reflexivity.
    + split; [exact Hrange|]. exists typed. exact Hcur.
    + split; [exact Hrange|]. exists typed. exact Hcur.
    + rewrite step_fullscreen.
      split; [exact Hrange|]. exists typed. exact Hcur.
Qed.

(** No event of a session makes its handler complete by a throw, unless it
    is the fullscreen call of the document that throws. *)
Lemma reachable_never_throws (h : Host) (e : Event) (r : State) :
  reachable r ->
  plainEvent r e = true ->
  (e = FullscreenClick -> fullscreenCall h = Normal tt) ->
  fst (run h e r) = Normal tt.
Proof.
  intros Hreach _ Hcall.
  destruct (reachable_invariant r Hreach) as [_ [typed Hcur]].
  destruct e as [[| | |]| | | |]; try reflexivity;
    [| | |unfold run, handle, toggleFullscreen;
          rewrite (Hcall eq_refl);
          destruct (fullscreenElement h); reflexivity].
  - unfold run, handle, handleKeyPress. rewrite Hcur.
    destruct (truthyString (trim typed)); [|reflexivity].
    unfold bind at 1. cbn [setCommandHistory].
    unfold bind at 1. cbn [setHistoryIndex].
    unfold bind at 1.
    match goal with
    | |- context [handleCommand ?a ?b ?c ?d] =>
        destruct (handleCommand_returns a b d c) as [resp [nxt' E]]
    end.
    rewrite E. reflexivity.
  - unfold run, handle, handleKeyPress.
    destruct (historyIndex r <? _)%Z; reflexivity.
  - unfold run, handle, handleKeyPress.
    destruct (historyIndex r >? 0)%Z; [reflexivity|].
    destruct (historyIndex r =? 0)%Z; reflexivity.
Qed.

(** No scrollback of a session holds a blank line. *)
Lemma reachable_no_blank_line (r : State) :
  reachable r -> Forall (fun line => truthyString line = true) (history r).
Proof.
  induction 1 as [|h e r Hreach IH _ _].
  - repeat constructor.
  - destruct (reachable_invariant r Hreach) as [_ [typed Hcur]].
    destruct e as [[| | |]| | | |]; try exact IH;
      [| | | |rewrite step_fullscreen; exact IH].
    + destruct (truthyString (trim typed)) eqn:Hcmd.
      * destruct (handleCommand_returns h (withInput typed r)
                    (atSubmit (trim typed) (withInput typed r)) (trim typed))
          as [response [nxt Hresp]].
        pose proof (submitLine_response h typed r response nxt Hcmd Hresp)
          as E.
        unfold submitLine in E. rewrite step_change in E.
        rewrite (withInput_same r typed Hcur) in E.
        rewrite E. cbn [history]. unfold appended.
        apply Forall_app. split.
        -- apply Forall_forall. intros x Hx.
           apply filter_In in Hx. tauto.
        -- constructor; [reflexivity|].
           apply Forall_forall. intros x Hx.
           apply filter_In in Hx. tauto.
      * destruct (step_enter h r typed Hcur) as [[_ Hsame]|[Habs _]];
          [rewrite Hsame; exact IH|congruence].
    + destruct (navigate_invariant h Previous r) as [_ [Hsame _]];
        [apply (reachable_invariant r Hreach)|].
      destruct Hsame as [Hhist _].
      change (step h (KeyDown ArrowUp) r) with (navigate h Previous r).
      rewrite Hhist. exact IH.
    + destruct (navigate_invariant h Next r) as [_ [Hsame _]];
        [apply (reachable_invariant r Hreach)|].
      destruct Hsame as [Hhist _].
      change (step h (KeyDown ArrowDown) r) with (navigate h Next r).
      rewrite Hhist. exact IH.
    + repeat constructor.
Qed.

(* ================================================================== *)
(** ** More on the primitives *)

Lemma trimStart_blank (s : string) :
  trimStart s = "" <-> allWhiteSpace s = true.
Proof.
  induction s as [|c s IH]; simpl; [tauto|].
  destruct (isWhiteSpace c); simpl; [exact IH|].
  split; discriminate.
Qed.

Lemma trimStart_head (s : string) :
  match trimStart s with
  | EmptyString => True
  | String c _ => isWhiteSpace c = false
  end.
Proof.
  induction s as [|c s IH]; simpl; [exact I|].
  destruct (isWhiteSpace c) eqn:Hc; [exact IH|exact Hc].
Qed.

Lemma trimEnd_keeps_head (c : ascii) (s : string) :
  isWhiteSpace c = false ->
  exists t : string, trimEnd (String c s) = String c t.
Proof.
  intros Hc. simpl. destruct (trimEnd s).
  - rewrite Hc. eauto.
  - eauto.
Qed.

Lemma trimEnd_idempotent (s : string) : trimEnd (trimEnd s) = trimEnd s.
Proof.
  induction s as [|c s IH]; [reflexivity|].
  simpl. destruct (trimEnd s) as [|d t] eqn:Ht.
  - destruct (isWhiteSpace c) eqn:Hc; simpl; [reflexivity|].
    rewrite Hc. reflexivity.
  - change (trimEnd (String c (String d t)))
      with (match trimEnd (String d t) with
            | EmptyString => if isWhiteSpace c then EmptyString
                             else String c EmptyString
            | u => String c u
            end).
    rewrite IH. reflexivity.
Qed.

Lemma trim_blank (s : string) : trim s = "" <-> allWhiteSpace s = true.
Proof.
  rewrite <- trimStart_blank. unfold trim.
  pose proof (trimStart_head s) as Hhead.
  destruct (trimStart s) as [|c t]; [simpl; tauto|].
  destruct (trimEnd_keeps_head c t Hhead) as [u Hu]. rewrite Hu.
  split; discriminate.
Qed.

Lemma trim_idempotent (s : string) : trim (trim s) = trim s.
Proof.
  unfold trim.
  pose proof (trimStart_head s) as Hhead.
  destruct (trimStart s) as [|c t]; [reflexivity|].
  destruct (trimEnd_keeps_head c t Hhead) as [u Hu].
  rewrite Hu. simpl trimStart. rewrite Hhead.
  rewrite <- Hu. apply trimEnd_idempotent.
Qed.

Lemma truthy_trim (s : string) :
  truthyString (trim s) = negb (allWhiteSpace s).
Proof.
  destruct (allWhiteSpace s) eqn:Hs.
  - apply trim_blank in Hs. rewrite Hs. reflexivity.
  - destruct (trim s) eqn:Ht; [|reflexivity].
    apply trim_blank in Ht. congruence.
Qed.

Lemma split_not_nil (s : string) (sep : ascii) : split s sep <> [].
Proof.
  destruct s as [|c s]; simpl; [discriminate|].
  destruct (Ascii.eqb c sep); [discriminate|].
  destruct (split s sep); discriminate.
Qed.

Lemma concat_cons (sep x : string) (xs : list string) :
  xs <> [] -> String.concat sep (x :: xs) = x ++ sep ++ String.concat sep xs.
Proof. destruct xs; [contradiction|reflexivity]. Qed.

Lemma concat_split (s : string) : String.concat LFs (split s LF) = s.
Proof.
  induction s as [|c s IH]; [reflexivity|].
  simpl split. destruct (Ascii.eqb_spec c LF) as [Hc|Hc].
  - rewrite concat_cons by apply split_not_nil.
    rewrite IH, Hc. reflexivity.
  - pose proof (split_not_nil s LF) as Hne.
    destruct (split s LF) as [|piece pieces]; [contradiction|].
    destruct pieces as [|piece' pieces].
    + simpl in *. now rewrite IH.
    + change (String.concat LFs (String c piece :: piece' :: pieces))
        with (String c (String.concat LFs (piece :: piece' :: pieces))).
      now rewrite IH.
Qed.

Lemma split_pieces (s : string) :
  Forall (fun piece => hasNewline piece = false) (split s LF) /\
  length (split s LF) = S (countNewlines s).
Proof.
  induction s as [|c s [IHall IHlen]]; [split; repeat constructor|].
  simpl. destruct (Ascii.eqb c LF) eqn:Hc.
  - split; [constructor; [reflexivity|exact IHall]|].
    simpl. now rewrite IHlen.
  - destruct (split s LF) as [|piece pieces]; [discriminate IHlen|].
    inversion IHall as [|? ? Hpiece Hrest]; subst.
    split; [|exact IHlen].
    constructor; [|exact Hrest]. simpl. now rewrite Hc, Hpiece.
Qed.

Lemma hasNewline_app (s t : string) :
  hasNewline (s ++ t) = hasNewline s || hasNewline t.
Proof.
  induction s as [|c s IH]; simpl; [reflexivity|].
  now rewrite IH, orb_assoc.
Qed.

(* ================================================================== *)
(** ** What a command can queue *)

(** [handleCommand] queues nothing but the scrollback (only [clear]), the
    matrix flag (only [matrix]) and the color (only a [color ] line). *)
Lemma handleCommand_effects (h : Host) (r nxt nxt' : State)
      (command : string) (response : completion (option string)) :
  handleCommand h r command nxt = (response, nxt') ->
  (isFullscreen nxt' = isFullscreen nxt /\
   isMinimized nxt' = isMinimized nxt) /\
  (startsWith command "color " = false ->
   terminalColor nxt' = terminalColor nxt) /\
  (toLowerCase command <> "matrix" -> showMatrix nxt' = showMatrix nxt) /\
  (toLowerCase command <> "clear" -> history nxt' = history nxt).
Proof.
  unfold handleCommand.
  repeat match goal with
         | |- context [(toLowerCase command =? ?name)%string] =>
             destruct (String.eqb_spec (toLowerCase command) name)
         end;
    try (unfold bind, ret, setHistory, setShowMatrix;
         intros Heq; injection Heq as _ Hnxt; subst nxt';
         repeat split; intros; try reflexivity; congruence).
  destruct (startsWith command "echo ");
    [intros Heq; injection Heq as _ Hnxt; subst nxt'; repeat split|].
  cbv zeta.
  destruct (startsWith command "color ") eqn:Hcolor;
    [destruct (truthy (getProperty colorMap (slice command 6)))|];
    try (unfold bind, ret, setTerminalColor;
         intros Heq; injection Heq as _ Hnxt; subst nxt';
         repeat split; intros; try reflexivity; congruence).
  all: destruct (startsWith command "calc ");
    unfold tryCatch, bind, call, ret;
    try destruct (evalFunction h (slice command 5));
    intros Heq; injection Heq as _ Hnxt; subst nxt';
    repeat split; intros; try reflexivity; congruence.
Qed.

(** Enter on a line that is not blank. *)
Lemma submitLine_shape (h : Host) (text : string) (r : State) :
  truthyString (trim text) = true ->
  exists (response : option string) (nxt : State),
    handleCommand h (withInput text r) (trim text)
                  (atSubmit (trim text) (withInput text r))
      = (Normal response, nxt) /\
    submitLine h text r =
      {| history := appended r (trim text) response;
         currentCommand := Str "";
         commandHistory := trim text :: commandHistory r;
         historyIndex := (-1)%Z;
         showMatrix := showMatrix nxt;
         isFullscreen := isFullscreen r;
         isMinimized := isMinimized r;
         terminalColor := terminalColor nxt |}.
Proof.
  intros Hcmd.
  destruct (handleCommand_returns h (withInput text r)
              (atSubmit (trim text) (withInput text r)) (trim text))
    as [response [nxt Hresp]].
  exists response, nxt. split; [exact Hresp|].
  rewrite (submitLine_response h text r response nxt Hcmd Hresp).
  destruct (handleCommand_frame _ _ _ _ _ _ Hresp) as [_ [Hcmds Hidx]].
  destruct (handleCommand_effects _ _ _ _ _ _ Hresp) as [[Hfull Hmini] _].
  rewrite Hcmds, Hidx, Hfull, Hmini. reflexivity.
Qed.

(** Enter on a blank line: only the typed text is there. *)
Lemma submitLine_blank (h : Host) (text : string) (r : State) :
  truthyString (trim text) = false -> submitLine h text r = withInput text r.
Proof.
  intros Hcmd. unfold submitLine. rewrite step_change.
  unfold step, run, handle, handleKeyPress.
  cbn [currentCommand withInput]. rewrite Hcmd. reflexivity.
Qed.

(** X1.  A submitted line that holds white space only, or nothing, is
    ignored: no command runs, nothing reaches the scrollback or the command
    history, the cursor stays, and the typed text stays in the line
    buffer. *)
Theorem blank_line_is_ignored (h : Host) (text : string) (r : State) :
  allWhiteSpace text = true ->
  submitLine h text r = withInput text r /\
  history (submitLine h text r) = history r /\
  commandHistory (submitLine h text r) = commandHistory r /\
  historyIndex (submitLine h text r) = historyIndex r /\
  currentCommand (submitLine h text r) = Str text.
Proof.
  intros Hblank.
  rewrite (submitLine_blank h text r);
    [repeat split|rewrite truthy_trim, Hblank; reflexivity].
Qed.

Lemma blank_line_is_ignored_witness :
  allWhiteSpace "   " = true /\
  submitLine Arith.host "   " initialState = withInput "   " initialState.
Proof.
  split; [reflexivity|].
  apply (blank_line_is_ignored Arith.host "   " initialState).
  reflexivity.
Defined.

(** X2.  Every submitted line that is not blank and is plain (no [calc ]
    line with a text that is not arithmetic, no [color ] line that names an
    inherited member) is stored, trimmed, at the front of the command
    history, whether or not it is a known command; the cursor goes back to
    -1, the line buffer is emptied, and the window flags are left alone.
    The premise on plain lines keeps to the lines whose handling is
    followed in full: see [Host] and [setTerminalColor]. *)
Theorem submit_records_command (h : Host) (text : string) (r : State) :
  allWhiteSpace text = false ->
  plainLine (trim text) = true ->
  commandHistory (submitLine h text r) = trim text :: commandHistory r /\
  historyIndex (submitLine h text r) = (-1)%Z /\
  currentCommand (submitLine h text r) = Str "" /\
  isMinimized (submitLine h text r) = isMinimized r /\
  isFullscreen (submitLine h text r) = isFullscreen r.
Proof.
  intros Hblank _.
  destruct (submitLine_shape h text r) as [response [nxt [_ E]]];
    [rewrite truthy_trim, Hblank; reflexivity|].
  rewrite E. repeat split.
Qed.

Lemma submit_records_command_witness :
  allWhiteSpace "  no such command " = false /\
  plainLine (trim "  no such command ") = true /\
  commandHistory (submitLine Arith.host "  no such command " initialState)
    = ["no such command"] /\
  historyIndex (submitLine Arith.host "  no such command " initialState)
    = (-1)%Z.
Proof.
  split; [reflexivity|]. split; [reflexivity|].
  pose proof (submit_records_command Arith.host "  no such command "
                initialState eq_refl eq_refl) as [Hcmds [Hidx _]].
  split; [exact Hcmds|exact Hidx].
Defined.



(* ================================================================== *)
(** ** What a submitted line changes *)

Lemma lowercase_truthy (s name : string) :
  toLowerCase s = name -> name <> "" -> truthyString s = true.
Proof. destruct s; simpl; intros H Hne; [congruence|reflexivity]. Qed.

Lemma filter_idempotent (l : list string) :
  filter truthyString (filter truthyString l) = filter truthyString l.
Proof.
  induction l as [|x l IH]; [reflexivity|].
  cbn [filter]. destruct (truthyString x) eqn:Hx; [|exact IH].
  cbn [filter]. rewrite Hx. f_equal. exact IH.
Qed.

(** X4.  A line that is [matrix] in any letter case, with any white space
    around it, flips the matrix flag and is answered by one fixed
    confirmation line; submitted twice, it brings the flag back to where it
    was, with the same confirmation line both times. *)
Theorem matrix_twice_restores (h1 h2 : Host) (text : string) (r : State) :
  toLowerCase (trim text) = "matrix" ->
  history (submitLine h1 text r)
    = (filter truthyString (history r)
         ++ [("> " ++ trim text)%string; "Matrix mode toggled..."])%list /\
  showMatrix (submitLine h1 text r) = negb (showMatrix r) /\
  showMatrix (submitLine h2 text (submitLine h1 text r)) = showMatrix r /\
  history (submitLine h2 text (submitLine h1 text r))
    = (filter truthyString (history r)
         ++ [("> " ++ trim text)%string; "Matrix mode toggled...";
             ("> " ++ trim text)%string; "Matrix mode toggled..."])%list.
Proof.
  intros Hlc.
  assert (Hcmd : truthyString (trim text) = true)
    by (apply (lowercase_truthy _ _ Hlc); discriminate).
  assert (Hone : forall (h : Host) (st : State),
             submitLine h text st =
               {| history := appended st (trim text)
                               (Some "Matrix mode toggled...");
                  currentCommand := Str "";
                  commandHistory := trim text :: commandHistory st;
                  historyIndex := (-1)%Z;
                  showMatrix := negb (showMatrix st);
                  isFullscreen := isFullscreen st;
                  isMinimized := isMinimized st;
                  terminalColor := terminalColor st |}).
  { intros h st.
    erewrite submitLine_response;
      [ | exact Hcmd | unfold handleCommand; rewrite Hlc; reflexivity ].
    reflexivity. }
  assert (Hout : filter truthyString
                   (processOutput (Some "Matrix mode toggled..."))
                 = ["Matrix mode toggled..."]) by reflexivity.
  assert (Hecho : truthyString ("> " ++ trim text) = true) by reflexivity.
  rewrite !Hone. cbn [history showMatrix]. unfold appended.
  rewrite !Hout.
  repeat split.
  - apply negb_involutive.
  - cbn [history].
    rewrite filter_app, filter_idempotent. cbn [filter].
    rewrite Hecho. rewrite <- app_assoc. reflexivity.
Qed.

Lemma matrix_twice_restores_witness :
  toLowerCase (trim " MaTrIx ") = "matrix" /\
  showMatrix (submitLine Arith.host " MaTrIx " initialState) = true /\
  showMatrix (submitLine Arith.host " MaTrIx "
                (submitLine Arith.host " MaTrIx " initialState)) = false.
Proof.
  split; [reflexivity|].
  pose proof (matrix_twice_restores Arith.host Arith.host " MaTrIx "
                initialState eq_refl) as [_ [Hone [Htwo _]]].
  split; [exact Hone|exact Htwo].
Defined.



(* ================================================================== *)
(** ** Invariants of a session *)

Lemma filter_all_truthy (l : list string) :
  Forall (fun line => truthyString line = true) l ->
  filter truthyString l = l.
Proof.
  induction 1 as [|x l Hx _ IH]; [reflexivity|].
  cbn [filter]. rewrite Hx, IH. reflexivity.
Qed.

Lemma reachable_commands_stored (r : State) :
  reachable r -> Forall storedCommand (commandHistory r).
Proof.
  induction 1 as [|h e r Hreach IH _ _]; [constructor|].
  destruct (reachable_invariant r Hreach) as [_ [typed Hcur]].
  destruct e as [[| | |]| | | |]; try exact IH;
    [| | |rewrite step_fullscreen; exact IH].
  - destruct (step_enter h r typed Hcur)
      as [[_ Hsame]|[Hcmd [Hcmds _]]].
    + rewrite Hsame. exact IH.
    + rewrite Hcmds. constructor; [|exact IH].
      split; [now apply truthyString_true|apply trim_idempotent].
  - change (step h (KeyDown ArrowUp) r) with (navigate h Previous r).
    rewrite navigate_previous.
    destruct (historyIndex r <? _)%Z; exact IH.
  - change (step h (KeyDown ArrowDown) r) with (navigate h Next r).
    rewrite navigate_next.
    destruct (historyIndex r >? 0)%Z; [exact IH|].
    destruct (historyIndex r =? 0)%Z; exact IH.
Qed.

Lemma reachable_scrollback_not_empty (r : State) :
  reachable r -> history r <> [].
Proof.
  induction 1 as [|h e r Hreach IH _ _]; [discriminate|].
  destruct (reachable_invariant r Hreach) as [_ [typed Hcur]].
  destruct e as [[| | |]| | | |]; try exact IH; try discriminate;
    [| | |rewrite step_fullscreen; exact IH].
  - destruct (truthyString (trim typed)) eqn:Hcmd.
    + destruct (submitLine_shape h typed r Hcmd) as [response [nxt [_ E]]].
      unfold submitLine in E. rewrite step_change in E.
      rewrite (withInput_same r typed Hcur) in E.
      rewrite E. cbn [history]. unfold appended.
      intros Habs. apply app_eq_nil in Habs as [_ Habs]. discriminate.
    + destruct (step_enter h r typed Hcur) as [[_ Hsame]|[Habs _]];
        [rewrite Hsame; exact IH|congruence].
  - change (step h (KeyDown ArrowUp) r) with (navigate h Previous r).
    rewrite navigate_previous.
    destruct (historyIndex r <? _)%Z; exact IH.
  - change (step h (KeyDown ArrowDown) r) with (navigate h Next r).
    rewrite navigate_next.
    destruct (historyIndex r >? 0)%Z; [exact IH|].
    destruct (historyIndex r =? 0)%Z; exact IH.
Qed.

(** Builds a session from the events that lead to a closed state. *)
Ltac session :=
  repeat first
    [ apply reachable_initial
    | apply reachable_step; [ | reflexivity | reflexivity ] ].

(** X6.  In every state of a session (any events the view can deliver,
    any hosts, plain submitted lines) the history cursor is -1 or an index
    into the command history, and the line buffer holds a string, never
    [undefined]. *)
Theorem session_cursor_and_buffer (r : State) :
  reachable r -> cursorInRange r /\ inputIsString r.
Proof.
  intros Hreach.
  destruct (reachable_invariant r Hreach) as [Hrange Hinput].
  split; [exact Hrange|exact Hinput].
Qed.

Lemma session_cursor_and_buffer_witness :
  let r := navigate Arith.host Previous
             (step Arith.host FullscreenClick
                (submitLine Arith.host "calc (2 + 3) * 4" initialState)) in
  reachable r /\ cursorInRange r /\ inputIsString r.
Proof.
  intros r.
  assert (Hr : reachable r) by (subst r; session).
  split; [exact Hr|]. exact (session_cursor_and_buffer r Hr).
Defined.

(** X7.  In every state of a session no handler completes by a throw on a
    plain event: Enter on a plain line, any other key, typed text, or a
    click, the fullscreen click as long as the fullscreen call of the
    document does not throw.  A throw of the calculator's evaluation is
    among the cases: it is caught.  The premise on plain events keeps to
    the lines whose handling is followed in full: see [Host]. *)
Theorem session_never_throws (h : Host) (e : Event) (r : State) :
  reachable r ->
  plainEvent r e = true ->
  (e = FullscreenClick -> fullscreenCall h = Normal tt) ->
  fst (run h e r) = Normal tt.
Proof.
  intros Hreach Hplain Hcall. now apply reachable_never_throws.
Qed.

Lemma session_never_throws_witness :
  let r := step Arith.host (Change "calc )(") initialState in
  reachable r /\
  plainEvent r (KeyDown Enter) = true /\
  evalFunction Arith.host ")(" = Throw /\
  fst (run Arith.host (KeyDown Enter) r) = Normal tt.
Proof.
  intros r.
  assert (Hr : reachable r) by (subst r; session).
  split; [exact Hr|]. split; [reflexivity|]. split; [reflexivity|].
  apply (session_never_throws Arith.host (KeyDown Enter) r Hr).
  - reflexivity.
  - discriminate.
Defined.

(** X8.  In every state of a session the scrollback holds no empty line
    and is itself never empty: no plain command, [clear] included, leaves
    an empty scrollback. *)
Theorem session_scrollback_lines (r : State) :
  reachable r ->
  Forall (fun line => line <> "") (history r) /\ history r <> [].
Proof.
  intros Hreach. split; [|exact (reachable_scrollback_not_empty r Hreach)].
  pose proof (reachable_no_blank_line r Hreach) as Hall.
  apply Forall_forall. intros line Hin.
  rewrite Forall_forall in Hall. apply truthyString_true. now apply Hall.
Qed.

Lemma session_scrollback_lines_witness :
  let r := submitLine Arith.host "clear"
             (submitLine Arith.host "echo  " initialState) in
  reachable r /\ Forall (fun line => line <> "") (history r) /\
  history r <> [].
Proof.
  intros r.
  assert (Hr : reachable r) by (subst r; session).
  split; [exact Hr|]. exact (session_scrollback_lines r Hr).
Defined.

(** X9.  In every state of a session each entry of the command history is
    a trimmed, non-empty line: what Enter stored, never raw input. *)
Theorem session_commands_are_trimmed (r : State) :
  reachable r -> Forall storedCommand (commandHistory r).
Proof.
  intros Hreach. now apply reachable_commands_stored.
Qed.

Lemma session_commands_are_trimmed_witness :
  let r := submitLine Arith.host "  whoami " initialState in
  reachable r /\ Forall storedCommand (commandHistory r).
Proof.
  intros r.
  assert (Hr : reachable r) by (subst r; session).
  split; [exact Hr|]. exact (session_commands_are_trimmed r Hr).
Defined.

(** X10.  Plain commands only append: in a session, a submitted line that
    is not blank and is plain leaves every line of the scrollback in place
    and adds, after them, the echoed [> line] followed by the non-empty
    lines of the handler's output.  The premise on plain lines keeps to
    the lines whose handling is followed in full: see [Host] and
    [setTerminalColor]. *)
Theorem submit_appends_to_scrollback (h : Host) (text : string) (r : State) :
  reachable r ->
  allWhiteSpace text = false ->
  plainLine (trim text) = true ->
  exists out : list string,
    history (submitLine h text r)
      = (history r ++ ("> " ++ trim text)%string :: out)%list /\
    Forall (fun line => line <> "") out.
Proof.
  intros Hreach Hblank _.
  destruct (submitLine_shape h text r) as [response [nxt [_ E]]];
    [rewrite truthy_trim, Hblank; reflexivity|].
  exists (filter truthyString (processOutput response)). split.
  - rewrite E. cbn [history]. unfold appended.
    rewrite (filter_all_truthy _ (reachable_no_blank_line r Hreach)).
    reflexivity.
  - apply Forall_forall. intros line Hin. apply filter_In in Hin.
    now apply truthyString_true.
Qed.

Lemma submit_appends_to_scrollback_witness :
  reachable initialState /\
  allWhiteSpace "clear" = false /\
  plainLine (trim "clear") = true /\
  exists out : list string,
    history (submitLine Arith.host "clear" initialState)
      = (history initialState ++ "> clear" :: out)%list /\
    Forall (fun line => line <> "") out.
Proof.
  split; [constructor|]. split; [reflexivity|]. split; [reflexivity|].
  apply (submit_appends_to_scrollback Arith.host "clear" initialState).
  - constructor.
  - reflexivity.
  - reflexivity.
Defined.

(* ================================================================== *)
(** ** Walking the command history *)

Lemma navigateAll_cons (h : Host) (d : Direction) (ds : list Direction)
      (r : State) :
  navigateAll h (d :: ds) r = navigateAll h ds (navigate h d r).
Proof. reflexivity. Qed.

(** From an entry, k Previous navigations go k entries towards the oldest
    one and stop there; the line buffer keeps mirroring the entry. *)
Lemma previous_iterated (h : Host) (k : nat) (r : State) :
  browsing r ->
  browsing (navigateAll h (repeat Previous k) r) /\
  historyIndex (navigateAll h (repeat Previous k) r)
    = Z.min (historyIndex r + Z.of_nat k)
            (Z.of_nat (length (commandHistory r)) - 1) /\
  commandHistory (navigateAll h (repeat Previous k) r) = commandHistory r.
Proof.
  revert r. induction k as [|k IH]; intros r [Hrange Hmirror].
  - cbn [repeat navigateAll fold_left].
    split; [split; assumption|]. split; [lia|reflexivity].
  - cbn [repeat]. rewrite navigateAll_cons, navigate_previous.
    destruct (Z.ltb_spec (historyIndex r)
                         (Z.of_nat (length (commandHistory r)) - 1)).
    + match goal with
      | |- context [navigateAll h _ ?st] =>
          destruct (IH st) as [Hb [Hidx Hcmds]]
      end.
      { split; cbn; [lia|reflexivity]. }
      cbn [historyIndex commandHistory] in Hidx, Hcmds.
      split; [exact Hb|]. split; [rewrite Hidx; lia|exact Hcmds].
    + destruct (IH r (conj Hrange Hmirror)) as [Hb [Hidx Hcmds]].
      split; [exact Hb|]. split; [rewrite Hidx; lia|exact Hcmds].
Qed.

(** X11.  With the cursor at -1 and N > 0 stored commands, k >= 1 Previous
    navigations put the cursor on entry min(k, N) - 1 and the line buffer
    on that entry: the k-th most recent command, and the oldest one once k
    reaches N.  The command history is not changed. *)
Theorem previous_repeated_shows_kth_newest
        (h : Host) (k : nat) (r : State) :
  historyIndex r = (-1)%Z ->
  commandHistory r <> [] ->
  let r' := navigateAll h (repeat Previous (S k)) r in
  let i := Nat.min (S k) (length (commandHistory r)) - 1 in
  historyIndex r' = Z.of_nat i /\
  (exists c : string,
      nth_error (commandHistory r) i = Some c /\ currentCommand r' = Str c) /\
  commandHistory r' = commandHistory r.
Proof.
  intros Hidx Hne r' i. subst r' i.
  assert (Hlen : 0 < length (commandHistory r))
    by (destruct (commandHistory r); [contradiction|cbn; lia]).
  cbn [repeat]. rewrite navigateAll_cons, navigate_previous, Hidx.
  destruct (Z.ltb_spec (-1) (Z.of_nat (length (commandHistory r)) - 1));
    [|lia].
  match goal with
  | |- context [navigateAll h _ ?st] =>
      destruct (previous_iterated h k st) as [[Hrange Hmirror] [Hi Hcmds]]
  end.
  { split; cbn; [lia|reflexivity]. }
  cbn [historyIndex commandHistory] in Hi, Hcmds.
  rewrite Hcmds in Hrange, Hmirror.
  assert (Hi' : historyIndex
                  (navigateAll h (repeat Previous k)
                     {| history := history r;
                        currentCommand := index (commandHistory r) (-1 + 1);
                        commandHistory := commandHistory r;
                        historyIndex := (-1 + 1)%Z;
                        showMatrix := showMatrix r;
                        isFullscreen := isFullscreen r;
                        isMinimized := isMinimized r;
                        terminalColor := terminalColor r |})
                = Z.of_nat (Nat.min (S k) (length (commandHistory r)) - 1))
    by (rewrite Hi; lia).
  split; [exact Hi'|]. split; [|exact Hcmds].
  rewrite Hmirror, Hi'.
  destruct (index_in_range (commandHistory r)
              (Z.of_nat (Nat.min (S k) (length (commandHistory r)) - 1)))
    as [c [Hc Hnth]]; [lia|].
  exists c. rewrite Nat2Z.id in Hnth. split; assumption.
Qed.

Lemma previous_repeated_shows_kth_newest_witness :
  let r := submitLine Arith.host "third"
             (submitLine Arith.host "second"
                (submitLine Arith.host "first" initialState)) in
  historyIndex r = (-1)%Z /\
  commandHistory r = ["third"; "second"; "first"] /\
  currentCommand (navigateAll Arith.host (repeat Previous 2) r)
    = Str "second" /\
  currentCommand (navigateAll Arith.host (repeat Previous 7) r)
    = Str "first".
Proof.
  intros r. split; [reflexivity|]. split; [reflexivity|].
  assert (Hne : commandHistory r <> []) by discriminate.
  split.
  - destruct (previous_repeated_shows_kth_newest
                Arith.host 1 r eq_refl Hne) as [_ [[c [Hnth Hcur]] _]].
    injection Hnth as Hc. subst c. exact Hcur.
  - destruct (previous_repeated_shows_kth_newest
                Arith.host 6 r eq_refl Hne) as [_ [[c [Hnth Hcur]] _]].
    injection Hnth as Hc. subst c. exact Hcur.
Defined.

(** X12.  Previous and then Next, from a state whose cursor is in range.
    Where Previous can move (the cursor is below the oldest entry), the
    pair brings the cursor back where it was, but not the line buffer: from
    the live line (cursor -1) the buffer comes back empty, so text that was
    typed and not submitted is gone; from an entry the buffer shows that
    entry.  Where Previous cannot move (the cursor is on the oldest entry,
    or the command history is empty), the pair acts as Next alone; with an
    empty command history it changes nothing, and typed text is kept. *)
Theorem previous_then_next (h h' : Host) (r : State) :
  cursorInRange r ->
  ((historyIndex r < Z.of_nat (length (commandHistory r)) - 1)%Z ->
   historyIndex (navigate h' Next (navigate h Previous r)) = historyIndex r /\
   currentCommand (navigate h' Next (navigate h Previous r))
     = (if (historyIndex r =? -1)%Z then Str ""
        else index (commandHistory r) (historyIndex r)) /\
   commandHistory (navigate h' Next (navigate h Previous r))
     = commandHistory r) /\
  (historyIndex r = (Z.of_nat (length (commandHistory r)) - 1)%Z ->
   navigate h' Next (navigate h Previous r) = navigate h' Next r) /\
  (commandHistory r = [] ->
   navigate h' Next (navigate h Previous r) = r).
Proof.
  unfold cursorInRange. intros Hrange. split; [|split].
  - intros Hroom. rewrite navigate_previous.
    destruct (Z.ltb_spec (historyIndex r)
                         (Z.of_nat (length (commandHistory r)) - 1)); [|lia].
    rewrite navigate_next. cbn [historyIndex commandHistory].
    rewrite Z.gtb_ltb.
    destruct (Z.ltb_spec 0 (historyIndex r + 1)).
    + destruct (Z.eqb_spec (historyIndex r) (-1)); [lia|].
      cbn. replace (historyIndex r + 1 - 1)%Z with (historyIndex r) by lia.
      repeat split.
    + destruct (Z.eqb_spec (historyIndex r + 1) 0); [|lia].
      destruct (Z.eqb_spec (historyIndex r) (-1)); [|lia].
      cbn. repeat split. lia.
  - intros Holdest. rewrite (navigate_previous h r).
    destruct (Z.ltb_spec (historyIndex r)
                         (Z.of_nat (length (commandHistory r)) - 1)); [lia|].
    reflexivity.
  - intros Hempty. rewrite Hempty in Hrange. cbn [length] in Hrange.
    rewrite (navigate_previous h r), Hempty. cbn [length].
    destruct (Z.ltb_spec (historyIndex r) (Z.of_nat 0 - 1)); [lia|].
    rewrite navigate_next, Z.gtb_ltb.
    destruct (Z.ltb_spec 0 (historyIndex r)); [lia|].
    destruct (Z.eqb_spec (historyIndex r) 0); [lia|]. reflexivity.
Qed.

Lemma previous_then_next_witness :
  let r := step Arith.host (Change "half typed")
             (submitLine Arith.host "whoami" initialState) in
  let r0 := step Arith.host (Change "half typed") initialState in
  cursorInRange r /\
  currentCommand r = Str "half typed" /\
  historyIndex (navigate Arith.host Next (navigate Arith.host Previous r))
    = (-1)%Z /\
  currentCommand (navigate Arith.host Next (navigate Arith.host Previous r))
    = Str "" /\
  cursorInRange r0 /\
  commandHistory r0 = [] /\
  currentCommand
    (navigate Arith.host Next (navigate Arith.host Previous r0))
    = Str "half typed".
Proof.
  intros r r0.
  assert (Hr : cursorInRange r) by (unfold cursorInRange; cbn; lia).
  assert (Hr0 : cursorInRange r0) by (unfold cursorInRange; cbn; lia).
  split; [exact Hr|]. split; [reflexivity|].
  assert (Hroom : (historyIndex r
                   < Z.of_nat (length (commandHistory r)) - 1)%Z)
    by (cbn; lia).
  destruct (previous_then_next Arith.host Arith.host r Hr)
    as [Hmoves _].
  destruct (Hmoves Hroom) as [Hidx [Hcur _]].
  split; [exact Hidx|]. split; [exact Hcur|].
  split; [exact Hr0|]. split; [reflexivity|].
  destruct (previous_then_next Arith.host Arith.host r0 Hr0)
    as [_ [_ Hempty]].
  rewrite (Hempty eq_refl). reflexivity.
Defined.

Lemma next_iterated (h : Host) (k : nat) (r : State) :
  cursorInRange r ->
  cursorInRange (navigateAll h (repeat Next k) r) /\
  historyIndex (navigateAll h (repeat Next k) r)
    = Z.max (historyIndex r - Z.of_nat k) (-1) /\
  ((0 <= historyIndex r < Z.of_nat k)%Z ->
   currentCommand (navigateAll h (repeat Next k) r) = Str "") /\
  (historyIndex r = (-1)%Z -> navigateAll h (repeat Next k) r = r).
Proof.
  revert r. unfold cursorInRange.
  induction k as [|k IH]; intros r Hrange.
  - cbn [repeat navigateAll fold_left].
    split; [exact Hrange|]. split; [lia|]. split; [lia|reflexivity].
  - cbn [repeat]. rewrite navigateAll_cons, navigate_next, Z.gtb_ltb.
    destruct (Z.ltb_spec 0 (historyIndex r)).
    + match goal with
      | |- context [navigateAll h _ ?st] =>
          destruct (IH st) as [Hr [Hidx [Hcur _]]]
      end.
      { cbn; lia. }
      cbn [historyIndex commandHistory] in Hr, Hidx, Hcur.
      split; [exact Hr|]. split; [rewrite Hidx; lia|].
      split; [intros Hk; apply Hcur; lia|lia].
    + destruct (Z.eqb_spec (historyIndex r) 0).
      * match goal with
        | |- context [navigateAll h _ ?st] =>
            destruct (IH st) as [Hr [Hidx [_ Hstay]]]
        end.
        { cbn; lia. }
        cbn [historyIndex commandHistory] in Hr, Hidx, Hstay.
        split; [exact Hr|]. split; [rewrite Hidx; lia|].
        split; [|lia].
        intros _. rewrite (Hstay eq_refl). reflexivity.
      * destruct (IH r Hrange) as [Hr [Hidx [_ Hstay]]].
        split; [exact Hr|]. split; [rewrite Hidx; lia|].
        split; [lia|]. intros Hlive. exact (Hstay Hlive).
Qed.

(** X13.  From an entry i of the command history, any k > i Next
    navigations end on the live line: cursor -1 and an empty line buffer;
    with the cursor at -1, Next changes nothing at all. *)
Theorem next_repeated_reaches_live_line (h : Host) (k : nat) (r : State) :
  cursorInRange r ->
  ((0 <= historyIndex r < Z.of_nat k)%Z ->
   historyIndex (navigateAll h (repeat Next k) r) = (-1)%Z /\
   currentCommand (navigateAll h (repeat Next k) r) = Str "") /\
  (historyIndex r = (-1)%Z -> navigateAll h (repeat Next k) r = r).
Proof.
  intros Hrange.
  destruct (next_iterated h k r Hrange) as [_ [Hidx [Hcur Hstay]]].
  split; [|exact Hstay].
  intros Hk. split; [rewrite Hidx; lia|exact (Hcur Hk)].
Qed.

Lemma next_repeated_reaches_live_line_witness :
  let r := navigateAll Arith.host [Previous; Previous]
             (submitLine Arith.host "b"
                (submitLine Arith.host "a" initialState)) in
  cursorInRange r /\
  historyIndex r = 1%Z /\
  historyIndex (navigateAll Arith.host (repeat Next 2) r) = (-1)%Z /\
  currentCommand (navigateAll Arith.host (repeat Next 2) r) = Str "".
Proof.
  intros r.
  assert (Hr : cursorInRange r) by (unfold cursorInRange; cbn; lia).
  split; [exact Hr|]. split; [reflexivity|].
  apply (proj1 (next_repeated_reaches_live_line Arith.host 2 r Hr)).
  cbn. lia.
Defined.

(* ================================================================== *)
(** ** Output lines *)

(** X14.  [processOutput] loses nothing of a non-empty text: it returns one
    more line than the text has newlines, no line holds a newline, and the
    lines joined by newlines are the text again. *)
Theorem processOutput_round_trip (output : string) :
  output <> "" ->
  String.concat LFs (processOutput (Some output)) = output /\
  length (processOutput (Some output)) = S (countNewlines output) /\
  Forall (fun line => hasNewline line = false)
         (processOutput (Some output)).
Proof.
  intros Hne. unfold processOutput. cbn [truthyOpt].
  apply truthyString_true in Hne. rewrite Hne. cbn [negb].
  destruct (split_pieces output) as [Hall Hlen].
  split; [apply concat_split|]. split; assumption.
Qed.

Lemma processOutput_round_trip_witness :
  systeminfoText <> "" /\
  String.concat LFs (processOutput (Some systeminfoText)) = systeminfoText /\
  length (processOutput (Some systeminfoText)) = 6.
Proof.
  split; [discriminate|].
  destruct (processOutput_round_trip systeminfoText) as [Hjoin [Hlen _]];
    [discriminate|].
  split; [exact Hjoin|exact Hlen].
Defined.

(** X15.  A submitted line without a newline that is no exact command in
    any letter case and starts with none of [echo ], [color ], [calc ] is
    answered by exactly one line, the not-found message, which repeats the
    trimmed line in the letter case it was typed in; color and matrix flag
    are left alone. *)
Theorem unknown_line_reports_not_found
        (h : Host) (text : string) (r : State) :
  allWhiteSpace text = false ->
  hasNewline (trim text) = false ->
  ~ In (toLowerCase (trim text)) exactNames ->
  startsWith (trim text) "echo " = false ->
  startsWith (trim text) "color " = false ->
  startsWith (trim text) "calc " = false ->
  history (submitLine h text r)
    = (filter truthyString (history r)
         ++ [("> " ++ trim text)%string; commandNotFound (trim text)])%list /\
  terminalColor (submitLine h text r) = terminalColor r /\
  showMatrix (submitLine h text r) = showMatrix r.
Proof.
  intros Hblank Hnl Hexact Hecho Hcolor Hcalc.
  assert (Hcmd : truthyString (trim text) = true)
    by (rewrite truthy_trim, Hblank; reflexivity).
  rewrite (submitLine_response h text r
             (Some (commandNotFound (trim text)))
             (atSubmit (trim text) (withInput text r)) Hcmd);
    [|now apply unmatched_line_is_not_found].
  cbn [history terminalColor showMatrix atSubmit withInput].
  split; [|split; reflexivity].
  unfold appended, processOutput. cbn [truthyOpt negb].
  assert (Hmsg : truthyString (commandNotFound (trim text)) = true)
    by reflexivity.
  rewrite Hmsg. cbn [negb].
  rewrite split_without_separator.
  - cbn [filter]. rewrite Hmsg. reflexivity.
  - unfold commandNotFound. rewrite !hasNewline_app, Hnl. reflexivity.
Qed.

Lemma unknown_line_reports_not_found_witness :
  history (submitLine Arith.host " Echo hi" initialState)
    = (history initialState
         ++ ["> Echo hi"; commandNotFound "Echo hi"])%list.
Proof.
  apply (unknown_line_reports_not_found Arith.host " Echo hi" initialState);
    try reflexivity.
  cbn. intros H.
  repeat (destruct H as [H|H]; [discriminate H|]). exact H.
Defined.

(* ================================================================== *)
(** ** joke, echo and calc *)

(** X16.  With a random index below the number of jokes, a line that is
    [joke] in any letter case is answered by exactly one line, one of the
    three jokes: the one at the random index. *)
Theorem joke_tells_one_of_three (h : Host) (text : string) (r : State) :
  toLowerCase (trim text) = "joke" ->
  randomIndex h < length jokes ->
  exists j : string,
    nth_error jokes (randomIndex h) = Some j /\
    In j jokes /\
    history (submitLine h text r)
      = (filter truthyString (history r)
           ++ [("> " ++ trim text)%string; j])%list.
Proof.
  intros Hlc Hidx.
  assert (Hcmd : truthyString (trim text) = true)
    by (apply (lowercase_truthy _ _ Hlc); discriminate).
  assert (Hresp : forall st nxt : State,
             handleCommand h st (trim text) nxt
               = (Normal (nth_error jokes (randomIndex h)), nxt))
    by (intros st nxt; unfold handleCommand; rewrite Hlc; reflexivity).
  rewrite (submitLine_response h text r _ _ Hcmd (Hresp _ _)).
  cbn [history]. unfold appended.
  destruct (randomIndex h) as [|[|[|n]]]; [| | |cbn in Hidx; lia];
    eexists; (split; [reflexivity|]); (split; [cbn; tauto|]); reflexivity.
Qed.

Lemma joke_tells_one_of_three_witness :
  exists j : string,
    nth_error jokes (randomIndex Arith.host) = Some j /\
    In j jokes /\
    history (submitLine Arith.host "JOKE" initialState)
      = (filter truthyString (history initialState) ++ ["> JOKE"; j])%list.
Proof.
  apply (joke_tells_one_of_three Arith.host "JOKE" initialState).
  - reflexivity.
  - cbn. lia.
Defined.


(* ================================================================== *)
(** ** The matrix overlay *)

Lemma joinEmpty_cells (draws : nat -> bool) (cols : list nat) :
  String.length (joinEmpty (map (fun col => matrixCell (draws col)) cols))
    = length cols /\
  binaryDigits (joinEmpty (map (fun col => matrixCell (draws col)) cols))
    = true /\
  forall j : nat,
    j < length cols ->
    String.get j (joinEmpty (map (fun col => matrixCell (draws col)) cols))
      = Some (if draws (nth j cols 0) then "1" else "0")%char.
Proof.
  induction cols as [|c cols [IHlen [IHbin IHget]]].
  - repeat split. intros j Hj. cbn in Hj. lia.
  - cbn [map joinEmpty fold_right length].
    change (fold_right append ""
              (map (fun col => matrixCell (draws col)) cols))
      with (joinEmpty (map (fun col => matrixCell (draws col)) cols)).
    unfold matrixCell at 1 3 5.
    destruct (draws c) eqn:Hc; cbn [append String.length binaryDigits];
      (split; [now rewrite IHlen|]); (split; [exact IHbin|]);
      intros [|j] Hj; cbn [String.get nth];
      try (rewrite Hc; reflexivity); apply IHget; lia.
Qed.

(** X18.  Whatever the random draws, the matrix overlay has 20 rows of 80
    characters, each the digit 0 or 1, and the character of row i and
    column j is 1 exactly when draw number 80 i + j was above one half. *)
Theorem generateMatrix_shape (draws : nat -> bool) :
  length (generateMatrix draws) = 20 /\
  Forall (fun row => String.length row = 80 /\ binaryDigits row = true)
         (generateMatrix draws) /\
  forall i j : nat,
    i < 20 -> j < 80 ->
    exists row : string,
      nth_error (generateMatrix draws) i = Some row /\
      String.get j row
        = Some (if draws (i * 80 + j) then "1" else "0")%char.
Proof.
  unfold generateMatrix. split; [now rewrite length_map, length_seq|].
  split.
  - apply Forall_forall. intros row Hin.
    apply in_map_iff in Hin as [i [Hrow _]]. subst row. unfold matrixRow.
    destruct (joinEmpty_cells (fun col => draws (i * 80 + col)) (seq 0 80))
      as [Hlen [Hbin _]].
    split; [rewrite Hlen; apply length_seq|exact Hbin].
  - intros i j Hi Hj. exists (matrixRow draws i). split.
    + rewrite nth_error_map, nth_error_seq.
      destruct (Nat.ltb_spec i 20); [reflexivity|lia].
    + unfold matrixRow.
      destruct (joinEmpty_cells (fun col => draws (i * 80 + col)) (seq 0 80))
        as [_ [_ Hget]].
      rewrite Hget by (rewrite length_seq; exact Hj).
      rewrite seq_nth by exact Hj. reflexivity.
Qed.

Lemma generateMatrix_shape_witness :
  exists row : string,
    nth_error (generateMatrix Nat.even) 1 = Some row /\
    String.get 3 row = Some "0"%char.
Proof.
  destruct (generateMatrix_shape Nat.even) as [_ [_ Hcell]].
  apply (Hcell 1 3); lia.
Defined.

(* ================================================================== *)
(** ** The window buttons *)

Lemma stepAll_cons (he : Host * Event) (es : list (Host * Event))
      (r : State) :
  stepAll (he :: es) r = stepAll es (step (fst he) (snd he) r).
Proof. reflexivity. Qed.

(** X19.  Any sequence of clicks on the minimize and close buttons leaves
    the command history, its cursor, the line buffer, the color and the
    matrix flag as they were.  The window is minimized afterwards exactly
    when it was before and the minimize clicks are even in number, or it
    was not and they are odd; the scrollback is the single line
    [Terminal reset.] once close was clicked, and untouched otherwise. *)
Theorem window_clicks_keep_session (es : list (Host * Event)) (r : State) :
  forallb (fun he => isWindowClick (snd he)) es = true ->
  commandHistory (stepAll es r) = commandHistory r /\
  historyIndex (stepAll es r) = historyIndex r /\
  currentCommand (stepAll es r) = currentCommand r /\
  terminalColor (stepAll es r) = terminalColor r /\
  showMatrix (stepAll es r) = showMatrix r /\
  isMinimized (stepAll es r)
    = xorb (isMinimized r)
           (Nat.odd (length (filter (fun he => isMinimizeClick (snd he)) es)))
  /\
  history (stepAll es r)
    = if existsb (fun he => isCloseClick (snd he)) es
      then ["Terminal reset."] else history r.
Proof.
  revert r. induction es as [|[h e] es IH]; intros r Hclicks.
  - cbn. repeat split. now rewrite xorb_false_r.
  - cbn [forallb snd] in Hclicks.
    apply andb_true_iff in Hclicks as [He Hes].
    rewrite stepAll_cons. cbn [fst snd filter existsb].
    destruct (IH (step h e r) Hes)
      as (Hcmds & Hidx & Hcur & Hcolor & Hmatrix & Hmini & Hhist).
    rewrite Hcmds, Hidx, Hcur, Hcolor, Hmatrix, Hmini, Hhist.
    destruct e as [key|text| | |]; try discriminate He.
    + cbn. repeat split.
      destruct (existsb _ es); reflexivity.
    + cbn [isMinimizeClick isCloseClick orb length].
      rewrite Nat.odd_succ, <- Nat.negb_odd.
      cbn. repeat split.
      destruct (isMinimized r), (Nat.odd _); reflexivity.
Qed.

Lemma window_clicks_keep_session_witness :
  let r := submitLine Arith.host "color blue" initialState in
  let es := [(Arith.host, MinimizeClick); (Arith.host, CloseClick);
             (Arith.host, MinimizeClick); (Arith.host, MinimizeClick)] in
  commandHistory (stepAll es r) = ["color blue"] /\
  terminalColor (stepAll es r) = Str "#00ffff" /\
  isMinimized (stepAll es r) = true /\
  history (stepAll es r) = ["Terminal reset."].
Proof.
  intros r es.
  destruct (window_clicks_keep_session es r eq_refl)
    as (Hcmds & _ & _ & Hcolor & _ & Hmini & Hhist).
  repeat split; assumption.
Defined.
